(** * PER-4291-POC: the cookie store, the login detector and the
      authentication orchestrator of [auth_handler.py], and the per-URL
      [run] procedure of [web_scraper_universal_new.py].

    The Python code is embedded shallowly.  Text is [string] (ASCII
    characters; the code points above 127 that Python's [str] also holds are
    outside the model, and the statements that depend on character classes
    say so).  Code that touches the browser, the clock or the file system is
    written in a state-and-exception monad over an explicit [World].

    The pure parts of the scraper follow: the file names, the reader of
    the URLs, the extraction of links, images and Open Graph tags from
    the elements of a page, and the loop of [main_universal_new.py]. *)

From Stdlib Require Import ZArith Lia Bool List Ascii Sorted.
From stdpp Require Import base strings gmap list.

Local Open Scope Z_scope.

(** ** Characters and strings as Python sees them *)

Module Str.

Definition code (c : ascii) : N := N_of_ascii c.

Definition in_range (lo hi : N) (c : ascii) : bool :=
  ((lo <=? code c) && (code c <=? hi))%N.

Definition is_upper : ascii -> bool := in_range 65 90.
Definition is_lower : ascii -> bool := in_range 97 122.
Definition is_digit : ascii -> bool := in_range 48 57.
Definition is_alpha (c : ascii) : bool := is_upper c || is_lower c.
Definition is_ascii (c : ascii) : bool := (code c <? 128)%N.

(** [str.lower()] on ASCII text. *)
Definition lower_char (c : ascii) : ascii :=
  if is_upper c then ascii_of_N (code c + 32) else c.

Fixpoint lower (s : string) : string :=
  match s with
  | EmptyString => EmptyString
  | String c r => String (lower_char c) (lower r)
  end.

Fixpoint all (p : ascii -> bool) (s : string) : bool :=
  match s with
  | EmptyString => true
  | String c r => p c && all p r
  end.

Fixpoint map (f : ascii -> ascii) (s : string) : string :=
  match s with
  | EmptyString => EmptyString
  | String c r => String (f c) (map f r)
  end.

Definition eqc (a b : ascii) : bool := Ascii.eqb a b.

Fixpoint starts_with (p s : string) : bool :=
  match p, s with
  | EmptyString, _ => true
  | String a p', String b s' => eqc a b && starts_with p' s'
  | String _ _, EmptyString => false
  end.

(** [needle in hay] *)
Fixpoint contains (needle hay : string) : bool :=
  starts_with needle hay ||
  match hay with
  | EmptyString => false
  | String _ r => contains needle r
  end.

(** [any(x in hay for x in needles)], as the [for ... if ... return True]
    loops of the detector compute it. *)
Definition contains_any (needles : list string) (hay : string) : bool :=
  existsb (fun n => contains n hay) needles.

(** [s.split(':')[0]] and the like: the text before the first [d]. *)
Fixpoint before (d : ascii) (s : string) : string :=
  match s with
  | EmptyString => EmptyString
  | String c r => if eqc c d then EmptyString else String c (before d r)
  end.

(** [s.find(d)] together with the two slices around it. *)
Fixpoint cut (d : ascii) (s : string) : option (string * string) :=
  match s with
  | EmptyString => None
  | String c r =>
      if eqc c d then Some (EmptyString, r)
      else match cut d r with
           | Some (a, b) => Some (String c a, b)
           | None => None
           end
  end.

(** [s.endswith(d)] for one character. *)
Fixpoint last_is (d : ascii) (s : string) : bool :=
  match s with
  | EmptyString => false
  | String c EmptyString => eqc c d
  | String _ r => last_is d r
  end.

Fixpoint drop (n : nat) (s : string) : string :=
  match n, s with
  | O, _ => s
  | S k, String _ r => drop k r
  | S _, EmptyString => EmptyString
  end.

(** [s.replace(pat, '')] for a pattern that is not empty: every
    occurrence goes, scanning left to right, and what was copied is not
    looked at again.  [skip] counts the characters of the occurrence
    under the cursor that still have to be dropped. *)
Fixpoint remove_from (pat : string) (skip : nat) (s : string) : string :=
  match s with
  | EmptyString => EmptyString
  | String c r =>
      match skip with
      | S k => remove_from pat k r
      | O => if starts_with pat s
             then remove_from pat (Nat.pred (String.length pat)) r
             else String c (remove_from pat O r)
      end
  end.

Definition remove (pat s : string) : string :=
  match pat with
  | EmptyString => s
  | String _ _ => remove_from pat O s
  end.

End Str.

(** ** 4.1 Cookie store: the domain key *)

Module Url.

(** [urllib.parse]'s [scheme_chars]. *)
Definition scheme_char (c : ascii) : bool :=
  Str.is_alpha c || Str.is_digit c ||
  Str.eqc c "+" || Str.eqc c "-" || Str.eqc c ".".

Definition is_scheme (s : string) : bool :=
  match s with
  | EmptyString => false
  | String c _ => Str.is_alpha c && Str.all scheme_char s
  end.

(** The first step of [urlsplit]: a prefix up to the first [:] is the
    scheme when it is not empty, starts with a letter and holds scheme
    characters only; what follows the colon is split further. *)
Definition strip_scheme (url : string) : string :=
  match Str.cut ":" url with
  | Some (sch, rest) => if is_scheme sch then rest else url
  | None => url
  end.

Definition is_delim (c : ascii) : bool :=
  Str.eqc c "/" || Str.eqc c "?" || Str.eqc c "#".

(** [_splitnetloc(url, 2)]: up to the first of [/ ? #]. *)
Fixpoint until_delim (s : string) : string :=
  match s with
  | EmptyString => EmptyString
  | String c r => if is_delim c then EmptyString else String c (until_delim r)
  end.

(** [urlparse(url).netloc].  [urlsplit] also drops leading control
    characters and tab and newline characters, and raises [ValueError] on
    unbalanced square brackets; the URLs of the model have neither. *)
Definition netloc (url : string) : string :=
  let rest := strip_scheme url in
  if Str.starts_with "//" rest then until_delim (Str.drop 2 rest)
  else EmptyString.





End Url.

Module CookieStore.

(** [AuthHandler._get_domain_key] *)
Definition _get_domain_key (url : string) : string :=
  Str.before ":" (Str.remove "www." (Url.netloc url)).

(** [\w], [.] and [-]: the characters [re.sub(r'[^\w\.-]', '_', ...)]
    keeps (ASCII). *)
Definition is_safe (c : ascii) : bool :=
  Str.is_alpha c || Str.is_digit c ||
  Str.eqc c "_" || Str.eqc c "." || Str.eqc c "-".

Definition sanitize_char (c : ascii) : ascii :=
  if is_safe c then c else "_"%char.

Definition sanitize : string -> string := Str.map sanitize_char.

(** The sanitized domain key of [_get_cookie_file], the spec's
    [derive_key]. *)
Definition derive_key (url : string) : string :=
  sanitize (_get_domain_key url).


(** [os.path.join(a, b)] on POSIX paths. *)
Definition path_join (a b : string) : string :=
  if Str.starts_with "/" b then b
  else match a with
       | EmptyString => b
       | String _ _ => if Str.last_is "/" a then a +:+ b else a +:+ "/" +:+ b
       end.

(** [AuthHandler._get_cookie_file] *)
Definition _get_cookie_file (cookie_dir url : string) : string :=
  path_join cookie_dir (derive_key url +:+ "_cookies.json").

End CookieStore.

(** ** Effects: state passing with Python's exceptions *)

Inductive exn : Set :=
  | PageError        (* a probe on a torn-down or invalid page *)
  | NavigationError  (* [page.goto] failed *)
  | IOError          (* the file could not be opened *)
  | JSONError        (* [json.load] rejected the file *)
  | CookieError      (* [context.add_cookies] rejected the entries *)
  | ScrapeError.     (* an extraction collaborator failed *)

Inductive outcome (A : Type) : Type :=
  | Val (a : A)
  | Exc (e : exn).
Arguments Val {A} a.
Arguments Exc {A} e.

Definition M (S A : Type) : Type := S -> outcome A * S.

Module Eff.
Section Monad.
Context {S : Type}.

Definition ret {A} (a : A) : M S A := fun s => (Val a, s).

Definition bind {A B} (m : M S A) (k : A -> M S B) : M S B :=
  fun s => match m s with
           | (Val a, s') => k a s'
           | (Exc e, s') => (Exc e, s')
           end.

Definition raise {A} (e : exn) : M S A := fun s => (Exc e, s).

(** [try: m  except Exception as e: h e] *)
Definition catch {A} (m : M S A) (h : exn -> M S A) : M S A :=
  fun s => match m s with
           | (Val a, s') => (Val a, s')
           | (Exc e, s') => h e s'
           end.

Definition get : M S S := fun s => (Val s, s).
Definition modify (f : S -> S) : M S unit := fun s => (Val tt, f s).

(** A block that may [return]: [Some b] is [return b], [None] falls
    through to the statements that follow. *)
Definition or_else {A} (m : M S (option A)) (k : M S A) : M S A :=
  bind m (fun o => match o with Some a => ret a | None => k end).
End Monad.
End Eff.

Declare Scope eff_scope.
Delimit Scope eff_scope with eff.
Notation "x <- m ;; k" := (Eff.bind m (fun x => k))
  (at level 100, m at next level, right associativity) : eff_scope.
Notation "m ;;; k" := (Eff.bind m (fun _ => k))
  (at level 100, right associativity) : eff_scope.
Local Open Scope eff_scope.

(** ** 4.2 Login detector *)

Module Detector.

(** What one access to the page answers: the truthiness of the handle
    [query_selector] returns, the URL, the title; each may raise. *)
Record Snapshot : Type := {
  snap_query : string -> outcome bool;
  snap_url : outcome string;
  snap_title : outcome string }.

(** A live page: the document as the n-th access of a check sees it.  The
    page may navigate or finish loading between two probes. *)
Definition Page : Type := nat -> Snapshot.

Definition dq : string := String "034"%char EmptyString.
Definition quoted (s : string) : string := dq +:+ s +:+ dq.
Definition has_text (tag txt : string) : string :=
  tag +:+ ":has-text(" +:+ quoted txt +:+ ")".
Definition attr (tag name op v : string) : string :=
  tag +:+ "[" +:+ name +:+ op +:+ quoted v +:+ "]".

Definition sel_instagram_signup : string := "text=" +:+ quoted "Sign up for Instagram".
Definition sel_username : string := attr "input" "name" "=" "username".
Definition sel_password : string := attr "input" "type" "=" "password".
Definition sel_create_account : string := has_text "a" "Create new account".

Definition url_login_indicators : list string :=
  ["login"; "signin"; "sign-in"; "signup"; "sign-up"; "register"; "auth"; "accounts"].
Definition title_indicators : list string :=
  ["login"; "sign in"; "sign up"; "register"; "log in"].
Definition login_buttons : list string :=
  [has_text "button" "Log in"; has_text "button" "Sign in";
   has_text "button" "Login"; has_text "button" "Log In";
   has_text "button" "Sign In"; has_text "a" "Log in"; has_text "a" "Sign in"].

Definition profile_indicators : list string :=
  [attr "header img" "alt" "*=" "profile picture";
   has_text "section" "posts"; has_text "section" "followers";
   "article"; has_text "div" "Posts";
   attr "svg" "aria-label" "=" "Home"; attr "svg" "aria-label" "=" "Profile"].
Definition fb_indicators : list string :=
  [attr "a" "aria-label" "=" "Home"; attr "a" "aria-label" "=" "Profile";
   attr "div" "role" "=" "navigation"; attr "svg" "aria-label" "=" "Notifications";
   has_text "div" "Friends"; attr "div" "aria-label" "=" "Your profile";
   attr "a" "href" "*=" "/friends/"].

Section OnPage.
Variable page : Page.

(** The state of a check is the number of accesses made so far. *)
Definition access {A} (f : Snapshot -> outcome A) : M nat A :=
  fun n => (f (page n), S n).

Definition query_selector (sel : string) : M nat bool :=
  access (fun d => snap_query d sel).
Definition page_url : M nat string := access snap_url.
Definition page_title : M nat string := access snap_title.

(** [try: if page.query_selector(sel): return True  except Exception: pass] *)
Definition probe (sel : string) : M nat (option bool) :=
  Eff.catch (e <- query_selector sel ;;
             Eff.ret (if e then Some true else None))
            (fun _ => Eff.ret None).

(** [for selector in sels: try: if page.query_selector(selector):
    return True  except Exception: continue] *)
Fixpoint probe_any (sels : list string) : M nat (option bool) :=
  match sels with
  | [] => Eff.ret None
  | sel :: rest =>
      o <- probe sel ;;
      match o with
      | Some b => Eff.ret (Some b)
      | None => probe_any rest
      end
  end.

Definition probe_login_form : M nat (option bool) :=
  Eff.catch (u <- query_selector sel_username ;;
             p <- query_selector sel_password ;;
             Eff.ret (if u && p then Some true else None))
            (fun _ => Eff.ret None).

Definition probe_url : M nat (option bool) :=
  Eff.catch (u <- page_url ;;
             Eff.ret (if Str.contains_any url_login_indicators (Str.lower u)
                      then Some true else None))
            (fun _ => Eff.ret None).

Definition probe_title : M nat (option bool) :=
  Eff.catch (t <- page_title ;;
             Eff.ret (if Str.contains_any title_indicators (Str.lower t)
                      then Some true else None))
            (fun _ => Eff.ret None).

(** [AuthHandler.is_login_required]; its prints are left out. *)
Definition is_login_required : M nat bool :=
  Eff.catch
    (Eff.or_else (probe sel_instagram_signup)
    (Eff.or_else probe_login_form
    (Eff.or_else probe_url
    (Eff.or_else probe_title
    (Eff.or_else (probe_any login_buttons)
    (Eff.or_else (probe sel_create_account)
    (Eff.ret false)))))))
    (fun _ => Eff.ret true).

(** [AuthHandler.is_logged_in], over the detector it calls
    ([self.is_login_required], which a subclass or a test double may
    replace). *)
Definition is_logged_in_with (detect : M nat bool) (original_url : string)
  : M nat bool :=
  Eff.catch
    (Eff.or_else
       (Eff.catch (r <- detect ;;
                   Eff.ret (if r then Some false else None))
                  (fun _ => Eff.ret (Some false)))
    (Eff.or_else
       (if Str.contains "instagram.com" original_url
        then probe_any profile_indicators else Eff.ret None)
    (Eff.or_else
       (if Str.contains "facebook.com" original_url
        then probe_any fb_indicators else Eff.ret None)
    (Eff.catch (r <- detect ;; Eff.ret (negb r))
               (fun _ => Eff.ret false)))))
    (fun _ => Eff.ret false).

Definition is_logged_in : string -> M nat bool :=
  is_logged_in_with is_login_required.
End OnPage.

(** Pages used as inputs. *)
Definition quiet : Snapshot :=
  {| snap_query := fun _ => Val false;
     snap_url := Val "https://example.com/";
     snap_title := Val "Example Domain" |}.

Definition broken : Snapshot :=
  {| snap_query := fun _ => Exc PageError;
     snap_url := Exc PageError;
     snap_title := Exc PageError |}.

Definition login_form : Snapshot :=
  {| snap_query := fun sel =>
       Val (String.eqb sel sel_username || String.eqb sel sel_password);
     snap_url := Val "https://example.com/";
     snap_title := Val "Example Domain" |}.

Definition static (d : Snapshot) : Page := fun _ => d.

Definition unchanging (p : Page) : Prop := forall n, p n = p 0%nat.

(** *** The heuristics of the specification

    The six signals of section 4.2, each read off the document its probe
    sees; a probe that raises counts as a negative signal. *)
Definition found (d : Snapshot) (sel : string) : bool :=
  match snap_query d sel with Val b => b | Exc _ => false end.

Definition url_matches (d : Snapshot) : bool :=
  match snap_url d with
  | Val u => Str.contains_any url_login_indicators (Str.lower u)
  | Exc _ => false
  end.

Definition title_matches (d : Snapshot) : bool :=
  match snap_title d with
  | Val t => Str.contains_any title_indicators (Str.lower t)
  | Exc _ => false
  end.

(** Some selector of the list is found, the k-th one being looked for in
    the document of access [n + k]. *)
Fixpoint found_any (p : Page) (n : nat) (sels : list string) : bool :=
  match sels with
  | [] => false
  | sel :: rest => found (p n) sel || found_any p (S n) rest
  end.

Definition signup_prompt (p : Page) (n : nat) : bool :=
  found (p n) sel_instagram_signup.
Definition login_form_present (p : Page) (n : nat) : bool :=
  found (p (1 + n)%nat) sel_username && found (p (2 + n)%nat) sel_password.
Definition login_button_present (p : Page) (m : nat) : bool :=
  found_any p (2 + m)%nat login_buttons.
Definition create_account_link (p : Page) (m : nat) : bool :=
  found (p (9 + m)%nat) sel_create_account.

(** The priority-ordered OR, the URL being read at access [m]. *)
Definition signals_from (p : Page) (n m : nat) : bool :=
  signup_prompt p n || login_form_present p n ||
  url_matches (p m) || title_matches (p (1 + m)%nat) ||
  login_button_present p m || create_account_link p m.


(** The access after the form probe: the password field is not looked
    for when the query for the username field raised. *)
Definition after_form (p : Page) (n : nat) : nat :=
  match snap_query (p (1 + n)%nat) sel_username with
  | Val _ => (3 + n)%nat
  | Exc _ => (2 + n)%nat
  end.

Definition signals (p : Page) (n : nat) : bool :=
  signals_from p n (after_form p n).

(** The verdict on a document that stays as it is. *)
Definition verdict (d : Snapshot) : bool := signals (static d) 0%nat.


End Detector.

(** ** The browser, the clock and the file system *)

Module Browser.

(** A cookie entry as the browsing engine hands it out; stored and
    replayed, never interpreted. *)
Record Cookie : Type := {
  c_name : string; c_value : string; c_domain : string; c_path : string;
  c_expires : Z; c_http_only : bool; c_secure : bool }.

Inductive FileData : Type :=
  | Garbage                          (* not JSON: [json.load] raises *)
  | CookieJson (cs : list Cookie).   (* a JSON array of cookie entries *)

Inductive Msg : Type :=
  | MChecking (url : string)
  | MNavigating (url : string)
  | MAlreadyLoggedIn
  | MInitialCheckError (e : exn)
  | MLoginRequired
  | MCookiesExpired
  | MPleaseLogin (timeout : Z)
  | MLoginDetected (elapsed : Z)
  | MStillWaiting (remaining : Z)
  | MWaiting (remaining : Z)
  | MBlank
  | MNavigatingTarget (url : string)
  | MNavigationError (e : exn)
  | MReachedTarget
  | MNewCookiesSaved
  | MVerificationFailed (attempt : Z) (e : exn)
  | MCouldNotVerify
  | MLoginTimeout
  | MLoadedCookies (n : nat) (file : string)
  | MErrorLoadingCookies (e : exn)
  | MSavedCookies (n : nat) (file : string)
  | MCouldNotAuthenticate
  | MAuthenticationSuccessful
  | MSummarySaved.

(** What the code does to the outside, in order. *)
Inductive Event : Type :=
  | Print (m : Msg)
  | Sleep (secs : Z)
  | Goto (url : string)
  | CheckLogin (url : string)
  | AddCookies (cs : list Cookie)
  | WriteFile (path : string).

(** How the outside answers; the code cannot change it. *)
Record Env : Type := {
  e_live : nat -> Detector.Page;            (* the page during the k-th login check *)
  e_goto_raises : nat -> bool;              (* does the k-th [page.goto] raise *)
  e_readable : string -> bool;              (* [open(path, 'r')] succeeds *)
  e_writable : string -> bool;              (* [open(path, 'w')] succeeds *)
  e_accepts : list Cookie -> bool;          (* [context.add_cookies] takes them *)
  e_scrape_raises : bool }.                 (* an extraction step fails *)

Record World : Type := {
  w_env : Env;
  w_checks : nat;                           (* login checks made *)
  w_navs : nat;                             (* navigations made *)
  w_clock : Z;                              (* seconds slept *)
  w_files : gmap string FileData;           (* the cookie directory *)
  w_jar : list Cookie;                      (* the context's cookie jar *)
  w_trace : list Event;
  w_browser_open : bool;
  w_context_open : bool }.

Definition with_checks (n : nat) (w : World) : World :=
  {| w_env := w_env w; w_checks := n; w_navs := w_navs w; w_clock := w_clock w;
     w_files := w_files w; w_jar := w_jar w; w_trace := w_trace w;
     w_browser_open := w_browser_open w; w_context_open := w_context_open w |}.
Definition with_navs (n : nat) (w : World) : World :=
  {| w_env := w_env w; w_checks := w_checks w; w_navs := n; w_clock := w_clock w;
     w_files := w_files w; w_jar := w_jar w; w_trace := w_trace w;
     w_browser_open := w_browser_open w; w_context_open := w_context_open w |}.
Definition with_clock (c : Z) (w : World) : World :=
  {| w_env := w_env w; w_checks := w_checks w; w_navs := w_navs w; w_clock := c;
     w_files := w_files w; w_jar := w_jar w; w_trace := w_trace w;
     w_browser_open := w_browser_open w; w_context_open := w_context_open w |}.
Definition with_files (f : gmap string FileData) (w : World) : World :=
  {| w_env := w_env w; w_checks := w_checks w; w_navs := w_navs w; w_clock := w_clock w;
     w_files := f; w_jar := w_jar w; w_trace := w_trace w;
     w_browser_open := w_browser_open w; w_context_open := w_context_open w |}.
Definition with_jar (j : list Cookie) (w : World) : World :=
  {| w_env := w_env w; w_checks := w_checks w; w_navs := w_navs w; w_clock := w_clock w;
     w_files := w_files w; w_jar := j; w_trace := w_trace w;
     w_browser_open := w_browser_open w; w_context_open := w_context_open w |}.
Definition with_trace (t : list Event) (w : World) : World :=
  {| w_env := w_env w; w_checks := w_checks w; w_navs := w_navs w; w_clock := w_clock w;
     w_files := w_files w; w_jar := w_jar w; w_trace := t;
     w_browser_open := w_browser_open w; w_context_open := w_context_open w |}.
Definition with_open (b c : bool) (w : World) : World :=
  {| w_env := w_env w; w_checks := w_checks w; w_navs := w_navs w; w_clock := w_clock w;
     w_files := w_files w; w_jar := w_jar w; w_trace := w_trace w;
     w_browser_open := b; w_context_open := c |}.

Definition emit (e : Event) : M World unit :=
  Eff.modify (fun w => with_trace (w_trace w ++ [e]) w).

Definition print (m : Msg) : M World unit := emit (Print m).

(** [time.sleep(secs)] *)
Definition sleep (secs : Z) : M World unit :=
  emit (Sleep secs) ;;;
  Eff.modify (fun w => with_clock (w_clock w + secs) w).

(** [page.goto(url)] *)
Definition goto (url : string) : M World unit :=
  w <- Eff.get ;;
  emit (Goto url) ;;;
  Eff.modify (with_navs (S (w_navs w))) ;;;
  if e_goto_raises (w_env w) (w_navs w) then Eff.raise NavigationError
  else Eff.ret tt.

(** [context.add_cookies(cookies)] *)
Definition add_cookies (cs : list Cookie) : M World unit :=
  w <- Eff.get ;;
  if e_accepts (w_env w) cs
  then emit (AddCookies cs) ;;; Eff.modify (with_jar (w_jar w ++ cs))
  else Eff.raise CookieError.

(** [with open(path, 'r') as f: json.load(f)] on a file that exists. *)
Definition read_json (path : string) (data : FileData) : M World (list Cookie) :=
  w <- Eff.get ;;
  if e_readable (w_env w) path then
    match data with
    | CookieJson cs => Eff.ret cs
    | Garbage => Eff.raise JSONError
    end
  else Eff.raise IOError.

(** [with open(path, 'w') as f: json.dump(cookies, f, indent=2)]: the
    file is replaced when it can be opened, and left alone otherwise. *)
Definition write_json (path : string) (cs : list Cookie) : M World unit :=
  w <- Eff.get ;;
  if e_writable (w_env w) path
  then emit (WriteFile path) ;;;
       Eff.modify (with_files (<[path := CookieJson cs]> (w_files w)))
  else Eff.raise IOError.

(** [browser.close()] also closes the contexts of the browser. *)
Definition browser_close : M World unit := Eff.modify (with_open false false).
(** [context.close()] *)
Definition context_close : M World unit :=
  Eff.modify (fun w => with_open (w_browser_open w) false w).
(** [chromium.launch(...)], [browser.new_context(...)] *)
Definition launch : M World unit :=
  Eff.modify (fun w => with_open true (w_context_open w) w).
Definition new_context : M World unit :=
  Eff.modify (fun w => with_open (w_browser_open w) true w).

(** *** Comparing two worlds *)

(** [w'] is [w] after [dc] more login checks, [dn] more navigations,
    [dt] more seconds and the events [evs]; the files, the cookie jar and
    the browser are as they were. *)
Definition moved (w w' : World) (dc dn : nat) (dt : Z) (evs : list Event) : Prop :=
  w_env w' = w_env w /\
  w_checks w' = (dc + w_checks w)%nat /\
  w_navs w' = (dn + w_navs w)%nat /\
  w_clock w' = w_clock w + dt /\
  w_files w' = w_files w /\
  w_jar w' = w_jar w /\
  w_trace w' = w_trace w ++ evs /\
  w_browser_open w' = w_browser_open w /\
  w_context_open w' = w_context_open w.

(** The paths written, in order. *)
Fixpoint writes (evs : list Event) : list string :=
  match evs with
  | [] => []
  | WriteFile path :: rest => path :: writes rest
  | _ :: rest => writes rest
  end.

(** The seconds slept. *)
Fixpoint slept (evs : list Event) : Z :=
  match evs with
  | [] => 0
  | Sleep secs :: rest => secs + slept rest
  | _ :: rest => slept rest
  end.

End Browser.

(** ** 4.1 Cookie store: load and save *)

Module Handler.
Import Browser.

Record AuthHandler : Type := { cookie_dir : string }.

(** [AuthHandler.__init__] with its default directory. *)
Definition default : AuthHandler := {| cookie_dir := "cookies" |}.

Section Methods.
Variable self : AuthHandler.

Definition cookie_file (url : string) : string :=
  CookieStore._get_cookie_file (cookie_dir self) url.

(** [AuthHandler.load_cookies] *)
Definition load_cookies (url : string) : M World bool :=
  w <- Eff.get ;;
  match w_files w !! cookie_file url with
  | Some data =>
      Eff.catch
        (cookies <- read_json (cookie_file url) data ;;
         add_cookies cookies ;;;
         print (MLoadedCookies (length cookies) (cookie_file url)) ;;;
         Eff.ret true)
        (fun e => print (MErrorLoadingCookies e) ;;; Eff.ret false)
  | None => Eff.ret false
  end.

(** What loading the cookies may leave in the trace. *)
Definition is_load_event (e : Event) : bool :=
  match e with
  | AddCookies _ => true
  | Print (MLoadedCookies _ _) => true
  | Print (MErrorLoadingCookies _) => true
  | _ => false
  end.


(** [AuthHandler.save_cookies] *)
Definition save_cookies (url : string) : M World (list Cookie) :=
  w <- Eff.get ;;
  let cookies := w_jar w in
  write_json (cookie_file url) cookies ;;;
  print (MSavedCookies (length cookies) (cookie_file url)) ;;;
  Eff.ret cookies.

(** ** 4.3 Authentication orchestrator *)

Section Orchestrator.
(** [self.is_logged_in], the method the orchestrator calls. *)
Variable logged_in_check : Detector.Page -> string -> M nat bool.

(** One call [self.is_logged_in(page, original_url)]: the k-th call
    sees the page as it is live then. *)
Definition check (url : string) : M World bool :=
  fun w =>
    let w1 := with_trace (w_trace w ++ [CheckLogin url]) w in
    (fst (logged_in_check (e_live (w_env w) (w_checks w)) url 0%nat),
     with_checks (S (w_checks w)) w1).

(** [range(start, stop, -1)] *)
Definition range_down (start stop : Z) : list Z :=
  List.map (fun k => start - Z.of_nat k) (seq 0 (Z.to_nat (start - stop))).

(** One pass through the body of the countdown loop; [true] is
    [break] with [logged_in = True]. *)
Definition wait_body (url : string) (timeout i : Z) : M World bool :=
  brk <- (if i mod 3 =? 0 then
            hit <- Eff.catch (check url) (fun _ => Eff.ret false) ;;
            if hit then
              print (MLoginDetected (timeout - i)) ;;; Eff.ret true
            else
              (if i mod 9 =? 0 then print (MStillWaiting i) else Eff.ret tt) ;;;
              Eff.ret false
          else Eff.ret false) ;;
  if brk then Eff.ret true
  else print (MWaiting i) ;;; sleep 1 ;;; Eff.ret false.

(** The countdown loop; the result is [logged_in]. *)
Fixpoint wait_loop (url : string) (timeout : Z) (counts : list Z) : M World bool :=
  match counts with
  | [] => Eff.ret false
  | i :: rest =>
      brk <- wait_body url timeout i ;;
      if brk then Eff.ret true else wait_loop url timeout rest
  end.

(** [try: page.goto(url); time.sleep(secs)  except: pass] *)
Definition goto_quietly (url : string) (secs : Z) : M World unit :=
  Eff.catch (goto url ;;; sleep secs) (fun _ => Eff.ret tt).

(** The navigation back to the target after a detected login. *)
Definition renavigate (url : string) : M World unit :=
  Eff.catch (goto url ;;; sleep 5)
            (fun e => print (MNavigationError e) ;;; sleep 3 ;;;
                      goto_quietly url 5).

Definition max_retries : Z := 3.

(** One pass through the body of the verification loop; [Some b] is
    [return b]. *)
Definition verify_body (url : string) (attempt : Z) : M World (option bool) :=
  r <- Eff.catch
         (ok <- check url ;;
          if ok then
            print MReachedTarget ;;;
            save_cookies url ;;;
            print MNewCookiesSaved ;;;
            Eff.ret (Some true)
          else Eff.ret None)
         (fun e => print (MVerificationFailed (attempt + 1) e) ;;; Eff.ret None) ;;
  match r with
  | Some b => Eff.ret (Some b)
  | None =>
      (if attempt <? max_retries - 1
       then sleep 2 ;;; goto_quietly url 3
       else Eff.ret tt) ;;;
      Eff.ret None
  end.

(** [for attempt in range(max_retries): ...] followed by the failure
    exit. *)
Fixpoint verify_loop (url : string) (attempts : list Z) : M World bool :=
  match attempts with
  | [] => print MCouldNotVerify ;;; Eff.ret false
  | a :: rest =>
      r <- verify_body url a ;;
      match r with
      | Some b => Eff.ret b
      | None => verify_loop url rest
      end
  end.

Definition range_up (n : Z) : list Z :=
  List.map Z.of_nat (seq 0 (Z.to_nat n)).

(** What follows the countdown loop. *)
Definition after_wait (url : string) (logged_in : bool) : M World bool :=
  print MBlank ;;;
  if logged_in then
    print (MNavigatingTarget url) ;;;
    sleep 2 ;;;
    renavigate url ;;;
    verify_loop url (range_up max_retries)
  else
    print MLoginTimeout ;;; Eff.ret false.

(** The first check, right after the first navigation; [Some b] is
    [return b]. *)
Definition initial_check (url : string) : M World (option bool) :=
  Eff.catch
    (ok <- check url ;;
     if ok then print MAlreadyLoggedIn ;;; Eff.ret (Some true)
     else Eff.ret None)
    (fun e => print (MInitialCheckError e) ;;; Eff.ret None).

(** From the [LOGIN REQUIRED] banner to the end. *)
Definition login_flow (url : string) (timeout : Z) (cookies_loaded : bool)
  : M World bool :=
  print MLoginRequired ;;;
  (if cookies_loaded then print MCookiesExpired else Eff.ret tt) ;;;
  print (MPleaseLogin timeout) ;;;
  logged_in <- wait_loop url timeout (range_down timeout 0) ;;
  after_wait url logged_in.

(** What follows the first navigation. *)
Definition settle_and_check (url : string) (timeout : Z)
    (cookies_loaded : bool) : M World bool :=
  sleep 5 ;;;
  r <- initial_check url ;;
  match r with
  | Some b => Eff.ret b
  | None => login_flow url timeout cookies_loaded
  end.

(** [AuthHandler.handle_authentication] *)
Definition handle_authentication_with (original_url : string) (timeout : Z)
  : M World bool :=
  print (MChecking original_url) ;;;
  cookies_loaded <- load_cookies original_url ;;
  print (MNavigating original_url) ;;;
  goto original_url ;;;
  settle_and_check original_url timeout cookies_loaded.

(** *** The schedule of the specification *)

(** The answer the login check number [k] gets. *)
Definition poll (env : Env) (url : string) (k : nat) : outcome bool :=
  fst (logged_in_check (e_live env k) url 0%nat).

(** How many of the counts are polled. *)
Definition polls (counts : list Z) : nat :=
  length (List.filter (fun i => i mod 3 =? 0) counts).

(** What a completed pass of the countdown at count [i] does. *)
Definition wait_pass (url : string) (i : Z) : list Event :=
  (if i mod 3 =? 0
   then CheckLogin url ::
        (if i mod 9 =? 0 then [Print (MStillWaiting i)] else [])
   else []) ++
  [Print (MWaiting i); Sleep 1].

Definition wait_passes (url : string) (counts : list Z) : list Event :=
  concat (List.map (wait_pass url) counts).

(** The pass that detects the login at count [i]. *)
Definition wait_hit (url : string) (timeout i : Z) : list Event :=
  [CheckLogin url; Print (MLoginDetected (timeout - i))].

(** A verification attempt confirms the login when the check answers
    [True] and the cookie file can be written. *)
Definition confirms (env : Env) (url : string) (k : nat) : bool :=
  match poll env url k with
  | Val true => e_writable env (cookie_file url)
  | _ => false
  end.

(** What a verification attempt that does not confirm does; [k] is
    the number of its check, [n] the number of the navigation that
    may follow it. *)
Definition attempt_failed (env : Env) (url : string) (attempt : Z)
    (k n : nat) : list Event :=
  CheckLogin url ::
  match poll env url k with
  | Val true => [Print MReachedTarget;
                 Print (MVerificationFailed (attempt + 1) IOError)]
  | Val false => []
  | Exc e => [Print (MVerificationFailed (attempt + 1) e)]
  end ++
  (if attempt <? max_retries - 1
   then [Sleep 2; Goto url] ++
        (if e_goto_raises env n then [] else [Sleep 3])
   else []).

(** What the attempt that confirms does. *)
Definition attempt_confirmed (url : string) (jar : list Cookie) : list Event :=
  [CheckLogin url; Print MReachedTarget; WriteFile (cookie_file url);
   Print (MSavedCookies (length jar) (cookie_file url));
   Print MNewCookiesSaved].

(** What a run of attempts that do not confirm does, the first one
    making check [k] and a retry navigation, if any, being
    navigation [n]. *)
Fixpoint attempts_failed (env : Env) (url : string) (attempts : list Z)
    (k n : nat) : list Event :=
  match attempts with
  | [] => []
  | a :: rest =>
      attempt_failed env url a k n ++
      attempts_failed env url rest (S k)
        (if a <? max_retries - 1 then S n else n)
  end.

(** The navigations a run of failed attempts makes. *)
Definition retries (attempts : list Z) : nat :=
  length (List.filter (fun a => a <? max_retries - 1) attempts).

(** The banner between the first check and the countdown. *)
Definition banner (timeout : Z) (cookies_loaded : bool) : list Event :=
  [Print MLoginRequired] ++
  (if cookies_loaded then [Print MCookiesExpired] else []) ++
  [Print (MPleaseLogin timeout)].

(** [w'] is [w] after the attempt that confirms the login. *)
Definition confirmed (url : string) (w w' : World) : Prop :=
  w_env w' = w_env w /\
  w_checks w' = S (w_checks w) /\
  w_navs w' = w_navs w /\
  w_clock w' = w_clock w /\
  w_files w' = <[cookie_file url := CookieJson (w_jar w)]> (w_files w) /\
  w_jar w' = w_jar w /\
  w_trace w' = w_trace w ++ attempt_confirmed url (w_jar w) /\
  w_browser_open w' = w_browser_open w /\
  w_context_open w' = w_context_open w.

(** Where a run that may have saved the cookies ends: nothing but
    the trace has changed, or [b] is [True] and the cookie file of
    the URL now holds the jar, written once after the target was
    reached. *)
Definition settled (url : string) (w w' : World) (b : bool)
    (evs : list Event) : Prop :=
  w_env w' = w_env w /\ w_jar w' = w_jar w /\
  w_trace w' = w_trace w ++ evs /\
  w_browser_open w' = w_browser_open w /\
  w_context_open w' = w_context_open w /\
  ((w_files w' = w_files w /\ writes evs = []) \/
   (b = true /\
    w_files w' = <[cookie_file url := CookieJson (w_jar w)]> (w_files w) /\
    writes evs = [cookie_file url] /\
    In (Print MReachedTarget) evs)).
End Orchestrator.

Definition handle_authentication : string -> Z -> M World bool :=
  handle_authentication_with Detector.is_logged_in.
End Methods.
End Handler.

(** ** The per-URL procedure of the scraper *)

Module Scraper.
Import Browser.

(** The module-level [auth_handler = AuthHandler()]. *)
Definition auth_handler : Handler.AuthHandler := Handler.default.

(** The extraction collaborators, from [page.wait_for_load_state] to the
    summary file: they either all complete or one of them raises. *)
Definition scrape : M World unit :=
  w <- Eff.get ;;
  if e_scrape_raises (w_env w) then Eff.raise ScrapeError
  else print MSummarySaved.

(** [run(playwright, url, take_screenshot, ...)].  The progress line, the
    init script, the new page and its default timeout act on nothing the
    world records. *)
Definition run (url : string) : M World unit :=
  launch ;;;
  new_context ;;;
  print (MNavigating url) ;;;
  goto url ;;;
  sleep 3 ;;;
  ok <- Handler.handle_authentication auth_handler url 60 ;;
  if negb ok then
    print MCouldNotAuthenticate ;;;
    browser_close
  else
    print MAuthenticationSuccessful ;;;
    scrape ;;;
    context_close.

End Scraper.

(** ** Worlds to run the code in *)

Module Scenario.
Import Browser.

(** A target on neither known platform. *)
Definition target : string := "https://example.com/x".

(** The login form is up until check [k], the content after it. *)
Definition logs_in_at (k : nat) : nat -> Detector.Page :=
  fun j => if (j <? k)%nat then Detector.static Detector.login_form
           else Detector.static Detector.quiet.

(** The content is up for the checks [k] to [k'] only. *)
Definition logged_in_between (k k' : nat) : nat -> Detector.Page :=
  fun j => if ((k <=? j) && (j <=? k'))%nat then Detector.static Detector.quiet
           else Detector.static Detector.login_form.

Definition env_of (live : nat -> Detector.Page) (goto_raises : nat -> bool) : Env :=
  {| e_live := live; e_goto_raises := goto_raises;
     e_readable := fun _ => true; e_writable := fun _ => true;
     e_accepts := fun _ => true; e_scrape_raises := false |}.

(** Before anything has happened. *)
Definition fresh (e : Env) : World :=
  {| w_env := e; w_checks := 0; w_navs := 0; w_clock := 0; w_files := ∅;
     w_jar := []; w_trace := []; w_browser_open := false;
     w_context_open := false |}.

Definition never : nat -> bool := fun _ => false.

(** Nobody logs in. *)
Definition nobody : World := fresh (env_of (logs_in_at 1000) never).
(** The session is already valid. *)
Definition valid_session : World := fresh (env_of (logs_in_at 0) never).
(** The user logs in between the second and the third poll. *)
Definition logs_in : World := fresh (env_of (logs_in_at 3) never).
(** The login shows at the first poll only, and the navigations that
    follow a failed verification attempt fail. *)
Definition lost_again : World :=
  fresh (env_of (logged_in_between 1 1) (fun k => (2 <=? k)%nat)).
(** A session cookie was saved by an earlier run. *)
Definition session_cookie : Cookie :=
  {| c_name := "sessionid"; c_value := "abc"; c_domain := "example.com";
     c_path := "/"; c_expires := -1; c_http_only := true; c_secure := true |}.

(** What a call has come to: its result, the seconds slept, the files
    written and the login checks made. *)
Definition outcome_of (r : outcome bool * World)
  : outcome bool * Z * list string * nat :=
  (fst r, w_clock (snd r), writes (w_trace (snd r)), w_checks (snd r)).
End Scenario.

(** ** More of Python's [str] *)

Module Text.

(** [c.isspace()]: the whitespace [str.strip()] and the pattern [\s] know
    (the code points below 256). *)
Definition is_space (c : ascii) : bool :=
  Str.in_range 9 13 c || Str.in_range 28 32 c ||
  (Str.code c =? 133)%N || (Str.code c =? 160)%N.

(** [s.lstrip()] *)
Fixpoint lstrip (s : string) : string :=
  match s with
  | EmptyString => EmptyString
  | String c r => if is_space c then lstrip r else s
  end.

(** [s.rstrip()] *)
Fixpoint rstrip (s : string) : string :=
  match s with
  | EmptyString => EmptyString
  | String c r =>
      match rstrip r with
      | EmptyString => if is_space c then EmptyString else String c EmptyString
      | String c' r' => String c (String c' r')
      end
  end.

(** [s.strip()] *)
Definition strip (s : string) : string := rstrip (lstrip s).

(** [not s] *)
Definition is_empty (s : string) : bool :=
  match s with EmptyString => true | String _ _ => false end.


(** The characters of [s] that satisfy [p], as [re.sub] with an empty
    replacement leaves them. *)
Fixpoint keep (p : ascii -> bool) (s : string) : string :=
  match s with
  | EmptyString => EmptyString
  | String c r => if p c then String c (keep p r) else keep p r
  end.

(** [s.split(d)] for a separator of one character. *)
Fixpoint split_on (d : ascii) (s : string) : list string :=
  match s with
  | EmptyString => [EmptyString]
  | String c r =>
      if Str.eqc c d then EmptyString :: split_on d r
      else match split_on d r with
           | h :: t => String c h :: t
           | [] => [String c EmptyString]
           end
  end.


(** [s.replace(a, b)] for single characters. *)
Definition replace_char (a b : ascii) (s : string) : string :=
  Str.map (fun c => if Str.eqc c a then b else c) s.

(** A text without whitespace at either end. *)
Definition trimmed (s : string) : Prop := lstrip s = s /\ rstrip s = s.

End Text.

(** ** File and folder names of the scraper *)

Module Names.

(** [\w] on ASCII text. *)
Definition is_word (c : ascii) : bool :=
  Str.is_alpha c || Str.is_digit c || Str.eqc c "_".

(** What [re.sub(r"[^\w\s-]", "", title)] keeps. *)
Definition kept (c : ascii) : bool :=
  is_word c || Text.is_space c || Str.eqc c "-".

(** [__safe_filename_from] *)
Definition __safe_filename_from (title : string) : string :=
  Text.replace_char " " "_" (Text.strip (Text.keep kept title)).

(** The folder [__create_page_folder] makes. *)
Definition page_folder (title : string) : string :=
  __safe_filename_from title +:+ "_data".

(** The folder [__ensure_screenshot_folder] makes for the base name
    [__capture_multiple_screenshots] takes from the title. *)
Definition screenshot_folder (title : string) : string :=
  __safe_filename_from title +:+ "_screenshots".

End Names.

(** ** The URLs typed in *)

Module Input.

(** The prefix test and the repair of [get_multiple_urls]. *)
Definition has_scheme (url : string) : bool :=
  Str.starts_with "http://" url || Str.starts_with "https://" url.

Definition with_scheme (url : string) : string :=
  if has_scheme url then url else "https://" +:+ url.

(** The loop of [get_multiple_urls] over the lines still to be typed:
    the URLs and the lines left unread, or [None] when [input()] finds no
    line (it raises [EOFError]).  The prompts and messages are left out. *)
Fixpoint ask (lines : list string) (urls : list string)
  : option (list string) * list string :=
  match lines with
  | [] => (None, [])
  | line :: rest =>
      let url := Text.strip line in
      if Text.is_empty url then
        match urls with
        | [] => ask rest urls
        | _ :: _ => (Some urls, rest)
        end
      else ask rest (urls ++ [with_scheme url])
  end.

(** [get_multiple_urls] *)
Definition get_multiple_urls (lines : list string)
  : option (list string) * list string :=
  ask lines [].

(** [get_user_input] *)
Definition get_user_input (lines : list string)
  : option string * list string :=
  match get_multiple_urls lines with
  | (Some (u :: _), rest) => (Some u, rest)
  | (Some [], rest) => (Some EmptyString, rest)
  | (None, rest) => (None, rest)
  end.

(** A line that counts as empty, and the URL a line stands for. *)
Definition blank (line : string) : bool := Text.is_empty (Text.strip line).
Definition url_of (line : string) : string := with_scheme (Text.strip line).

End Input.

(** ** The extraction collaborators *)

Module Extract.


(** *** Links *)






(** [base_url.split('/')[2]]; [None] is the [IndexError]. *)
Definition host_field (base_url : string) : option string :=
  nth_error (Text.split_on "/" base_url) 2.

(** What [get_multiple_urls] makes sure of in a URL: it starts with one
    of the two schemes, and so is not empty and has the field
    [__scrape_all_links] reads the host from. *)
Definition accepted (url : string) : Prop :=
  Input.has_scheme url = true /\ url <> EmptyString /\
  exists host, host_field url = Some host.

Section Resolve.
(** [urllib.parse.urljoin] *)
Variable urljoin : string -> string -> string.




















(** *** Images *)

Section Images.
(** The numbers of a bounding box. *)
Variable num : Type.







End Images.
End Resolve.

(** *** Open Graph tags *)

(** A [meta] element whose [property] starts with [og:]. *)
Record Meta : Type := { m_property : option string; m_content : option string }.

(** The [og_tags] dictionary of [__scrape_metadata]. *)
Definition og_step (tags : gmap string string) (m : Meta) : gmap string string :=
  match m_property m, m_content m with
  | Some (String c r), Some (String c' r') =>
      <[String c r := String c' r']> tags
  | _, _ => tags
  end.

Definition og_tags (metas : list Meta) : gmap string string :=
  fold_left og_step metas ∅.

(** The content a tag contributes under the key [k]. *)
Definition says (k : string) (m : Meta) : option string :=
  match m_property m, m_content m with
  | Some (String c r), Some (String c' r') =>
      if String.eqb (String c r) k then Some (String c' r') else None
  | _, _ => None
  end.

End Extract.

(** ** The batch of [main_universal_new.py] *)

Module Batch.
Import Browser.






End Batch.

(** ** Bounds and further worlds *)

Module Limits.
Import Browser.

(** [w'] is at most [secs] seconds, [navs] navigations and [checks] login
    checks after [w]. *)
Definition within (w w' : World) (secs : Z) (navs checks : nat) : Prop :=
  w_clock w <= w_clock w' <= w_clock w + secs /\
  (w_navs w <= w_navs w' <= navs + w_navs w)%nat /\
  (w_checks w <= w_checks w' <= checks + w_checks w)%nat.

(** The login shows at the first poll only; the way back to the target
    fails once and then works. *)
Definition slowest : World :=
  Scenario.fresh (Scenario.env_of (Scenario.logged_in_between 1 1)
                                  (fun k => (k =? 1)%nat)).

(** Every page seen sits at a sign-in address. *)
Definition at_login_url : Detector.Snapshot :=
  {| Detector.snap_query := fun _ => Val false;
     Detector.snap_url := Val "https://accounts.example.com/profile";
     Detector.snap_title := Val "Your profile" |}.

Definition stuck : World :=
  Scenario.fresh (Scenario.env_of (fun _ => Detector.static at_login_url)
                                  Scenario.never).
End Limits.

(** ** A page to extract from *)

Module Sample.
Import Extract.





(** A session that holds one cookie. *)
Definition signed_in : Browser.World :=
  Browser.with_jar [Scenario.session_cookie] Scenario.nobody.
End Sample.

(** * Properties *)

(** ** Strings *)

Module StrFacts.
Import Str.

Lemma eqc_true a b : eqc a b = true <-> a = b.
Proof. apply Ascii.eqb_eq. Qed.

Lemma eqc_false a b : eqc a b = false <-> a <> b.
Proof. apply Ascii.eqb_neq. Qed.


Lemma all_impl (p q : ascii -> bool) s :
  (forall c, p c = true -> q c = true) -> all p s = true -> all q s = true.
Proof.
  intros Hpq. induction s as [|c s IH]; simpl; [reflexivity|].
  intros [Hc Hs]%andb_true_iff. rewrite (Hpq _ Hc), (IH Hs). reflexivity.
Qed.

Lemma all_map p f s : all p (map f s) = all (fun c => p (f c)) s.
Proof. induction s as [|c s IH]; simpl; [reflexivity|]. now rewrite IH. Qed.

Lemma app_cons c (s t : string) : String c s +:+ t = String c (s +:+ t).
Proof. reflexivity. Qed.

Lemma app_assoc (s t u : string) : (s +:+ t) +:+ u = s +:+ (t +:+ u).
Proof.
  induction s as [|c s IH]; [reflexivity|].
  rewrite !app_cons. f_equal. exact IH.
Qed.










End StrFacts.

(** ** 4.1 The domain key *)

Module CookieStoreFacts.
Import Str StrFacts Url CookieStore.

Ltac by_cases_on c :=
  destruct c as [[] [] [] [] [] [] [] []]; vm_compute; congruence.



Lemma safe_not_slash c : is_safe c = true -> eqc "/" c = false.
Proof. by_cases_on c. Qed.

Lemma sanitize_char_safe c : is_safe (sanitize_char c) = true.
Proof. unfold sanitize_char. destruct (is_safe c) eqn:E; [exact E|reflexivity]. Qed.


Lemma sanitize_safe s : all is_safe (sanitize s) = true.
Proof.
  unfold sanitize. induction s as [|c s IH]; simpl; [reflexivity|].
  now rewrite sanitize_char_safe, IH.
Qed.















End CookieStoreFacts.

(** ** 4.2 The login detector *)

Module DetectorFacts.
Import Detector.
Local Open Scope nat_scope.

Lemma or_else_eval {St : Type} (m : M St (option bool)) (k : M St bool) s (b : bool) s' :
  m s = (Val (if b then Some true else None), s') ->
  Eff.or_else m k s = if b then (Val true, s') else k s'.
Proof. intros H. unfold Eff.or_else, Eff.bind. rewrite H. now destruct b. Qed.

Lemma found_any_static d sels : forall n,
  found_any (static d) n sels = existsb (found d) sels.
Proof.
  induction sels as [|sel rest IH]; intros n; [reflexivity|].
  cbn [found_any existsb]. now rewrite (IH (S n)).
Qed.

Section Probes.
Variable p : Page.

(** Each guarded probe yields a value, whatever the page does. *)
Lemma probe_eval sel n :
  probe p sel n = (Val (if found (p n) sel then Some true else None), S n).
Proof.
  unfold probe, Eff.catch, Eff.bind, query_selector, access, found.
  destruct (snap_query (p n) sel) as [[]|e]; reflexivity.
Qed.

Lemma probe_url_eval n :
  probe_url p n = (Val (if url_matches (p n) then Some true else None), S n).
Proof.
  unfold probe_url, Eff.catch, Eff.bind, page_url, access, url_matches.
  destruct (snap_url (p n)) as [u|e]; reflexivity.
Qed.

Lemma probe_title_eval n :
  probe_title p n = (Val (if title_matches (p n) then Some true else None), S n).
Proof.
  unfold probe_title, Eff.catch, Eff.bind, page_title, access, title_matches.
  destruct (snap_title (p n)) as [t|e]; reflexivity.
Qed.

Lemma probe_login_form_eval n :
  probe_login_form p (1 + n)
  = (Val (if login_form_present p n then Some true else None), after_form p n).
Proof.
  unfold probe_login_form, Eff.catch, Eff.bind, query_selector, access,
    login_form_present, after_form, found.
  destruct (snap_query (p (1 + n)%nat) sel_username) as [u|e]; [|reflexivity].
  cbn [Nat.add].
  destruct (snap_query (p (S (S n))) sel_password) as [pw|e];
    [|now rewrite andb_false_r].
  reflexivity.
Qed.

(** The loop over a list of selectors: it stops at the first one
    found, and otherwise has made one access per selector. *)
Lemma probe_any_eval sels : forall n,
  exists n',
    probe_any p sels n
    = (Val (if found_any p n sels then Some true else None), n') /\
    (found_any p n sels = false -> n' = (length sels + n)%nat).
Proof.
  induction sels as [|sel rest IH]; intros n.
  - exists n. split; reflexivity.
  - cbn [probe_any found_any]. unfold Eff.bind. rewrite probe_eval.
    destruct (found (p n) sel) eqn:E.
    + exists (S n). split; [reflexivity|discriminate].
    + destruct (IH (S n)) as (n' & Hrun & Hn'). exists n'.
      split; [exact Hrun|]. cbn [orb]. intros Hf. rewrite (Hn' Hf).
      cbn [length]. lia.
Qed.

(** The detector never raises, and its answer is the OR of the six
    signals, a raising probe counting as a negative one. *)
Lemma is_login_required_eval n :
  exists n', is_login_required p n = (Val (signals p n), n').
Proof.
  unfold is_login_required, Eff.catch.
  match goal with
  | |- exists n', match ?body n with _ => _ end = _ =>
      assert (H : exists n', body n = (Val (signals p n), n'));
        [|destruct H as (n' & ->); now exists n']
  end.
  unfold signals, signals_from.
  rewrite (or_else_eval _ _ _ _ _ (probe_eval sel_instagram_signup n)).
  unfold signup_prompt.
  destruct (found (p n) sel_instagram_signup); [now eexists|]. cbn [orb].
  rewrite (or_else_eval _ _ _ _ _ (probe_login_form_eval n)).
  destruct (login_form_present p n); [now eexists|]. cbn [orb].
  set (m := after_form p n).
  rewrite (or_else_eval _ _ _ _ _ (probe_url_eval m)).
  destruct (url_matches (p m)); [now eexists|]. cbn [orb].
  rewrite (or_else_eval _ _ _ _ _ (probe_title_eval (S m))).
  destruct (title_matches (p (1 + m)%nat)) eqn:Et;
    cbn [Nat.add] in Et; rewrite Et; [now eexists|]. cbn [orb].
  destruct (probe_any_eval login_buttons (S (S m))) as (n1 & Hrun & Hn1).
  rewrite (or_else_eval _ _ _ _ _ Hrun). unfold login_button_present.
  cbn [Nat.add].
  destruct (found_any p (S (S m)) login_buttons); [now eexists|]. cbn [orb].
  rewrite (Hn1 eq_refl). cbn [length login_buttons Nat.add].
  rewrite (or_else_eval _ _ _ _ _
             (probe_eval sel_create_account (S (S (S (S (S (S (S (S (S m))))))))))).
  unfold create_account_link. cbn [Nat.add].
  destruct (found _ sel_create_account); now eexists.
Qed.

Lemma is_login_required_total n :
  exists b n', is_login_required p n = (Val b, n').
Proof. destruct (is_login_required_eval n) as (n' & H). eauto. Qed.


Lemma found_any_unchanging sels : unchanging p ->
  forall n, found_any p n sels = existsb (found (p 0)) sels.
Proof.
  intros Hu. induction sels as [|sel rest IH]; intros n; [reflexivity|].
  cbn [found_any existsb]. now rewrite (Hu n), (IH (S n)).
Qed.

Lemma signals_from_unchanging n m m' : unchanging p ->
  signals_from p n m = signals_from (static (p 0)) 0 m'.
Proof.
  intros Hu.
  unfold signals_from, signup_prompt, login_form_present,
    login_button_present, create_account_link.
  rewrite (Hu n), (Hu (1 + n)), (Hu (2 + n)), (Hu m), (Hu (1 + m)), (Hu (9 + m)).
  rewrite (found_any_unchanging _ Hu), found_any_static.
  reflexivity.
Qed.

Lemma signals_unchanging n : unchanging p -> signals p n = verdict (p 0%nat).
Proof. intros Hu. unfold verdict, signals. now apply signals_from_unchanging. Qed.


Lemma is_logged_in_with_refused detect url n :
  (fst (detect n) = Val true \/ exists e, fst (detect n) = Exc e) ->
  fst (is_logged_in_with p detect url n) = Val false.
Proof.
  unfold is_logged_in_with, Eff.catch, Eff.or_else, Eff.bind.
  destruct (detect n) as [[[]|e] n1]; cbn [fst].
  - reflexivity.
  - intros [H|(e & H)]; discriminate.
  - reflexivity.
Qed.

Lemma is_logged_in_unchanging url n : unchanging p ->
  fst (is_logged_in p url n) = Val (negb (verdict (p 0%nat))).
Proof.
  intros Hu. unfold is_logged_in, is_logged_in_with.
  unfold Eff.catch at 1. unfold Eff.or_else at 1. unfold Eff.bind at 1.
  unfold Eff.catch at 1. unfold Eff.bind at 1.
  destruct (is_login_required_eval n) as (n1 & ->).
  rewrite (signals_unchanging n Hu).
  destruct (verdict (p 0%nat)) eqn:Ev; [reflexivity|]. cbn [Eff.ret negb].
  assert (Hlast : forall k, exists k',
             Eff.catch (r <- is_login_required p ;; Eff.ret (negb r))
                       (fun _ => Eff.ret false) k = (Val true, k')).
  { intros k. unfold Eff.catch, Eff.bind.
    destruct (is_login_required_eval k) as (k' & ->).
    rewrite (signals_unchanging k Hu), Ev. now exists k'. }
  assert (Hmark : forall (c : bool) sels (k : M nat bool) n0,
             (forall j, exists j', k j = (Val true, j')) ->
             exists j', Eff.or_else (if c then probe_any p sels else Eff.ret None)
                                    k n0 = (Val true, j')).
  { intros c sels k n0 Hk. unfold Eff.or_else, Eff.bind. destruct c.
    - destruct (probe_any_eval sels n0) as (j & -> & _).
      destruct (found_any p n0 sels); [now exists j|apply Hk].
    - apply Hk. }
  match goal with
  | |- fst (let (_, _) := ?t in _) = _ =>
      assert (H : exists j, t = (Val true, j)); [|destruct H as (j & ->); reflexivity]
  end.
  apply Hmark. intros j. apply Hmark. exact Hlast.
Qed.
End Probes.

(** C6, the failing input: on a page whose every access raises, each
    probe swallows its own error, the outer handler is never reached,
    and the detector answers [False] where its comment and the claim say
    [True]; [is_logged_in] then takes the page for an authenticated one. *)
Theorem is_login_required_invalid_page :
  forall n,
    fst (is_login_required (static broken) n) = Val false /\
    fst (is_logged_in (static broken) "https://example.com/" n) = Val true.
Proof.
  intros n. split.
  - destruct (is_login_required_eval (static broken) n) as (n' & ->).
    reflexivity.
  - rewrite is_logged_in_unchanging; [reflexivity|]. now intros k.
Qed.






End DetectorFacts.

(** ** The browser world *)

Module BrowserFacts.
Import Browser.

Lemma moved_refl w : moved w w 0 0 0 [].
Proof.
  unfold moved. rewrite Z.add_0_r, app_nil_r. repeat split; reflexivity.
Qed.

Lemma moved_trans w1 w2 w3 a b c e a' b' c' e' :
  moved w1 w2 a b c e -> moved w2 w3 a' b' c' e' ->
  moved w1 w3 (a' + a) (b' + b) (c + c') (e ++ e').
Proof.
  unfold moved.
  intros (H1 & H2 & H3 & H4 & H5 & H6 & H7 & H8 & H9)
         (K1 & K2 & K3 & K4 & K5 & K6 & K7 & K8 & K9).
  rewrite K1, K2, K3, K4, K5, K6, K7, K8, K9, H1, H2, H3, H4, H5, H6, H7, H8, H9.
  rewrite app_assoc. repeat split; lia.
Qed.

Lemma writes_app a b : writes (a ++ b) = writes a ++ writes b.
Proof.
  induction a as [|e a IH]; [reflexivity|].
  destruct e; cbn [writes app]; rewrite ?IH; reflexivity.
Qed.

Lemma slept_app a b : slept (a ++ b) = slept a + slept b.
Proof.
  induction a as [|e a IH]; [reflexivity|].
  destruct e; cbn [slept app]; rewrite ?IH; lia.
Qed.

Lemma in_writes path evs : In (WriteFile path) evs <-> In path (writes evs).
Proof.
  induction evs as [|e evs IH]; [reflexivity|].
  destruct e; cbn [writes In]; rewrite IH;
    try (split; [intros [H|H]; [discriminate|exact H]|now right]).
  split; intros [H|H]; auto; left; congruence.
Qed.
End BrowserFacts.

(** ** 4.1 Loading the cookies *)

Module LoadFacts.
Import Browser Handler.

Ltac run_load :=
  unfold load_cookies, Eff.bind, Eff.get, Eff.catch, read_json, add_cookies,
    print, emit, Eff.modify, Eff.ret, Eff.raise; cbn.

(** Whatever the file holds, loading returns a value and touches the
    cookie jar and the trace only. *)
Lemma load_cookies_frame self url w :
  exists b w' evs,
    load_cookies self url w = (Val b, w') /\
    w_env w' = w_env w /\ w_checks w' = w_checks w /\ w_navs w' = w_navs w /\
    w_clock w' = w_clock w /\ w_files w' = w_files w /\
    w_trace w' = w_trace w ++ evs /\ writes evs = [] /\
    w_browser_open w' = w_browser_open w /\
    w_context_open w' = w_context_open w /\
    forallb is_load_event evs = true.
Proof.
  run_load.
  destruct (w_files w !! cookie_file self url) as [data|].
  - destruct (e_readable (w_env w) (cookie_file self url)).
    + destruct data as [|cs].
      * eexists false, _, [Print (MErrorLoadingCookies JSONError)].
        cbn. repeat split.
      * cbn. destruct (e_accepts (w_env w) cs).
        -- eexists true, _,
             [AddCookies cs;
              Print (MLoadedCookies (length cs) (cookie_file self url))].
           cbn. rewrite <- app_assoc. repeat split.
        -- eexists false, _, [Print (MErrorLoadingCookies CookieError)].
           cbn. repeat split.
    + eexists false, _, [Print (MErrorLoadingCookies IOError)].
      cbn. repeat split.
  - exists false, w, []. rewrite app_nil_r. repeat split.
Qed.



End LoadFacts.

(** ** 4.3 The orchestrator *)

Module OrchestratorFacts.
Import Browser Handler BrowserFacts.

Ltac run_eff :=
  unfold Eff.bind, Eff.get, Eff.catch, Eff.or_else, print, sleep, emit,
    Eff.modify, Eff.ret, Eff.raise; cbn.

Ltac split_moved :=
  unfold moved; cbn;
  rewrite <- ?app_assoc, ?Z.add_0_r; cbn;
  repeat split; try reflexivity; try lia.

(** Closes a [moved] goal from the [moved] facts at hand. *)
Ltac by_moved :=
  repeat match goal with
         | H : moved _ _ _ _ _ _ |- _ => destruct H as (? & ? & ? & ? & ? & ? & ? & ? & ?)
         end;
  unfold moved; cbn;
  repeat match goal with
         | H : _ = _ |- _ => progress (rewrite H)
         end;
  repeat (progress (cbn; rewrite <- ?app_assoc));
  repeat split; try reflexivity; try lia.

(** *** The countdown *)

Lemma range_down_length a b : length (range_down a b) = Z.to_nat (a - b).
Proof. unfold range_down. now rewrite length_map, length_seq. Qed.

Lemma map_seq_shift {A} (f g : nat -> A) m : forall n j,
  (forall k, f (n + k)%nat = g (j + k)%nat) ->
  List.map f (seq n m) = List.map g (seq j m).
Proof.
  induction m as [|m IH]; intros n j H; [reflexivity|].
  cbn [seq List.map]. f_equal.
  - specialize (H 0%nat). now rewrite !Nat.add_0_r in H.
  - apply IH. intros k. specialize (H (S k)).
    now rewrite !Nat.add_succ_r in H.
Qed.

Lemma range_down_split a b c :
  c <= b <= a -> range_down a c = range_down a b ++ range_down b c.
Proof.
  intros H. unfold range_down.
  replace (Z.to_nat (a - c)) with (Z.to_nat (a - b) + Z.to_nat (b - c))%nat by lia.
  rewrite seq_app, map_app. f_equal. cbn [Nat.add].
  apply map_seq_shift. intros k. lia.
Qed.

Lemma range_down_cons i c : c < i -> range_down i c = i :: range_down (i - 1) c.
Proof.
  intros H. rewrite (range_down_split i (i - 1) c) by lia.
  unfold range_down at 1. replace (i - (i - 1)) with 1 by lia.
  change (Z.to_nat 1) with 1%nat. cbn [seq List.map app].
  f_equal. cbn [Z.of_nat]. lia.
Qed.

Lemma polls_app a b : polls (a ++ b) = (polls a + polls b)%nat.
Proof. unfold polls. now rewrite List.filter_app, length_app. Qed.

Lemma wait_passes_app url a b :
  wait_passes url (a ++ b) = wait_passes url a ++ wait_passes url b.
Proof. unfold wait_passes. now rewrite map_app, concat_app. Qed.

Lemma slept_wait_pass url i : slept (wait_pass url i) = 1.
Proof.
  unfold wait_pass.
  destruct (i mod 3 =? 0); [destruct (i mod 9 =? 0)|]; reflexivity.
Qed.

Lemma writes_wait_pass url i : writes (wait_pass url i) = [].
Proof.
  unfold wait_pass.
  destruct (i mod 3 =? 0); [destruct (i mod 9 =? 0)|]; reflexivity.
Qed.

Lemma writes_wait_passes url counts : writes (wait_passes url counts) = [].
Proof.
  induction counts as [|i counts IH]; [reflexivity|].
  change (wait_passes url (i :: counts))
    with (wait_pass url i ++ wait_passes url counts).
  now rewrite writes_app, writes_wait_pass, IH.
Qed.

Lemma slept_wait_passes url counts :
  slept (wait_passes url counts) = Z.of_nat (length counts).
Proof.
  induction counts as [|i counts IH]; [reflexivity|].
  change (wait_passes url (i :: counts))
    with (wait_pass url i ++ wait_passes url counts).
  rewrite slept_app, slept_wait_pass, IH. cbn [length]. lia.
Qed.

Section Loop.
Variable self : AuthHandler.
Variable chk : Detector.Page -> string -> M nat bool.
Variables (url : string) (timeout : Z).

(** A pass that does not detect the login: the count is not polled,
    or the poll does not answer [True]. *)
Lemma wait_body_pass i w :
  i mod 3 <> 0 \/ poll chk (w_env w) url (w_checks w) <> Val true ->
  exists w',
    wait_body chk url timeout i w = (Val false, w') /\
    moved w w' (polls [i]) 0 1 (wait_pass url i).
Proof.
  intros H. unfold wait_body, wait_pass, polls, check, poll in *.
  cbn [List.filter]. run_eff.
  destruct (i mod 3 =? 0) eqn:E3; cbn.
  - destruct H as [H|H]; [apply Z.eqb_eq in E3; contradiction|].
    destruct (chk (e_live (w_env w) (w_checks w)) url 0%nat) as [[[]|e] n'];
      cbn in *; try congruence;
      destruct (i mod 9 =? 0); cbn; eexists; (split; [reflexivity|split_moved]).
  - eexists; (split; [reflexivity|split_moved]).
Qed.

Lemma wait_body_hit i w :
  i mod 3 = 0 -> poll chk (w_env w) url (w_checks w) = Val true ->
  exists w',
    wait_body chk url timeout i w = (Val true, w') /\
    moved w w' 1 0 0 (wait_hit url timeout i).
Proof.
  intros H3 H. unfold wait_body, wait_hit, check, poll in *. run_eff.
  apply Z.eqb_eq in H3. rewrite H3. cbn.
  destruct (chk (e_live (w_env w) (w_checks w)) url 0%nat) as [[[]|e] n'];
    cbn in *; try congruence.
  eexists; (split; [reflexivity|split_moved]).
Qed.

(** The loop when no poll answers [True]. *)
Lemma wait_loop_pass counts : forall w,
  (forall k, (k < polls counts)%nat ->
             poll chk (w_env w) url (k + w_checks w) <> Val true) ->
  exists w',
    wait_loop chk url timeout counts w = (Val false, w') /\
    moved w w' (polls counts) 0 (Z.of_nat (length counts))
          (wait_passes url counts).
Proof.
  induction counts as [|i counts IH]; intros w H.
  - exists w. split; [reflexivity|apply moved_refl].
  - destruct (wait_body_pass i w) as (w1 & Hrun & Hm).
    { destruct (Z.eq_dec (i mod 3) 0) as [E|E]; [right|now left].
      apply (H 0%nat). unfold polls. cbn [List.filter].
      apply Z.eqb_eq in E. rewrite E. cbn. lia. }
    destruct (IH w1) as (w2 & Hrun2 & Hm2).
    { intros k Hk. destruct Hm as (-> & -> & _).
      replace (k + (polls [i] + w_checks w))%nat
        with ((k + polls [i]) + w_checks w)%nat by lia.
      apply H. change (i :: counts) with ([i] ++ counts).
      rewrite polls_app. lia. }
    exists w2. split.
    + cbn [wait_loop]. unfold Eff.bind. rewrite Hrun. exact Hrun2.
    + change (i :: counts) with ([i] ++ counts).
      rewrite polls_app, wait_passes_app, length_app.
      replace (Z.of_nat (length [i] + length counts))
        with (1 + Z.of_nat (length counts)) by (cbn [length]; lia).
      replace (polls [i] + polls counts)%nat
        with (polls counts + polls [i])%nat by lia.
      replace (wait_passes url [i]) with (wait_pass url i)
        by (unfold wait_passes; cbn; now rewrite app_nil_r).
      exact (moved_trans _ _ _ _ _ _ _ _ _ _ _ Hm Hm2).
Qed.

(** The loop when the poll at count [i] is the first to answer
    [True]. *)
Lemma wait_loop_hit pre i post w :
  i mod 3 = 0 ->
  (forall k, (k < polls pre)%nat ->
             poll chk (w_env w) url (k + w_checks w) <> Val true) ->
  poll chk (w_env w) url (polls pre + w_checks w) = Val true ->
  exists w',
    wait_loop chk url timeout (pre ++ i :: post) w = (Val true, w') /\
    moved w w' (S (polls pre)) 0 (Z.of_nat (length pre))
          (wait_passes url pre ++ wait_hit url timeout i).
Proof.
  intros H3 Hpre Hi.
  destruct (wait_loop_pass pre w Hpre) as (w1 & Hrun & Hm).
  destruct (wait_body_hit i w1 H3) as (w2 & Hrun2 & Hm2).
  { destruct Hm as (-> & -> & _). exact Hi. }
  exists w2. split.
  - clear Hm Hm2 Hpre Hi. revert w Hrun.
    induction pre as [|j pre IH]; intros w Hrun.
    + cbn in Hrun. injection Hrun as <-.
      cbn [app wait_loop]. unfold Eff.bind. now rewrite Hrun2.
    + cbn [app wait_loop] in *. unfold Eff.bind in *.
      destruct (wait_body chk url timeout j w) as [[[]|e] w0]; try discriminate.
      now apply IH.
  - replace (Z.of_nat (length pre)) with (Z.of_nat (length pre) + 0) by lia.
    exact (moved_trans _ _ _ _ _ _ _ _ _ _ _ Hm Hm2).
Qed.

(** Any pass, and so the whole loop, returns a value and writes no
    file; a detected login leaves its message in the trace. *)
Lemma wait_body_total i w :
  exists b w' dc dt evs,
    wait_body chk url timeout i w = (Val b, w') /\
    moved w w' dc 0 dt evs /\ writes evs = [] /\
    (b = true -> In (Print (MLoginDetected (timeout - i))) evs).
Proof.
  assert (Hpass : i mod 3 <> 0 \/ poll chk (w_env w) url (w_checks w) <> Val true ->
                  exists b w' dc dt evs,
                    wait_body chk url timeout i w = (Val b, w') /\
                    moved w w' dc 0 dt evs /\ writes evs = [] /\
                    (b = true -> In (Print (MLoginDetected (timeout - i))) evs)).
  { intros H. destruct (wait_body_pass i w H) as (w' & Hrun & Hm).
    exists false, w', (polls [i]), 1, (wait_pass url i).
    split; [exact Hrun|]. split; [exact Hm|].
    split; [apply writes_wait_pass|discriminate]. }
  destruct (Z.eq_dec (i mod 3) 0) as [E|E]; [|apply Hpass; now left].
  destruct (poll chk (w_env w) url (w_checks w)) as [[]|e] eqn:P;
    [|apply Hpass; right; congruence..].
  destruct (wait_body_hit i w E P) as (w' & Hrun & Hm).
  exists true, w', 1%nat, 0, (wait_hit url timeout i).
  split; [exact Hrun|]. split; [exact Hm|]. split; [reflexivity|].
  intros _. right. now left.
Qed.

Lemma wait_loop_total counts : forall w,
  exists b w' dc dt evs,
    wait_loop chk url timeout counts w = (Val b, w') /\
    moved w w' dc 0 dt evs /\ writes evs = [] /\
    (b = true -> exists el, In (Print (MLoginDetected el)) evs).
Proof.
  induction counts as [|i counts IH]; intros w.
  - exists false, w, 0%nat, 0, [].
    split; [reflexivity|]. split; [apply moved_refl|].
    split; [reflexivity|discriminate].
  - destruct (wait_body_total i w) as (b & w1 & dc & dt & evs & Hrun & Hm & Hw & Hb).
    cbn [wait_loop]. unfold Eff.bind. rewrite Hrun. destruct b.
    + exists true, w1, dc, dt, evs.
      split; [reflexivity|]. split; [exact Hm|]. split; [exact Hw|].
      intros _. eexists. now apply Hb.
    + destruct (IH w1) as (b2 & w2 & dc2 & dt2 & evs2 & Hrun2 & Hm2 & Hw2 & Hb2).
      exists b2, w2, (dc2 + dc)%nat, (dt + dt2), (evs ++ evs2).
      split; [exact Hrun2|]. split; [|split].
      * exact (moved_trans _ _ _ _ _ _ _ _ _ _ _ Hm Hm2).
      * now rewrite writes_app, Hw, Hw2.
      * intros Hb2'. destruct (Hb2 Hb2') as (el & Hin). exists el.
        apply in_or_app. now right.
Qed.

(** *** The way back to the target *)

Lemma renavigate_total w :
  exists w' dn dt evs,
    renavigate url w = (Val tt, w') /\
    moved w w' 0 dn dt evs /\ writes evs = [].
Proof.
  unfold renavigate, goto_quietly, goto. run_eff.
  destruct (e_goto_raises (w_env w) (w_navs w)); cbn.
  - destruct (e_goto_raises (w_env w) (S (w_navs w))); cbn.
    + eexists _, 2%nat, 3,
        [Goto url; Print (MNavigationError NavigationError); Sleep 3; Goto url].
      split; [reflexivity|]. split; [split_moved|reflexivity].
    + eexists _, 2%nat, (3 + 5),
        [Goto url; Print (MNavigationError NavigationError); Sleep 3; Goto url;
         Sleep 5].
      split; [reflexivity|]. split; [split_moved|reflexivity].
  - eexists _, 1%nat, 5, [Goto url; Sleep 5].
    split; [reflexivity|]. split; [split_moved|reflexivity].
Qed.

(** *** The verification attempts *)

Lemma verify_body_confirmed a w :
  confirms self chk (w_env w) url (w_checks w) = true ->
  exists w', verify_body self chk url a w = (Val (Some true), w') /\
             confirmed self url w w'.
Proof.
  unfold confirms, poll, verify_body, check, save_cookies, write_json,
    attempt_confirmed. run_eff. 
  destruct (chk (e_live (w_env w) (w_checks w)) url 0%nat) as [[[]|e] n'];
    cbn; try discriminate.
  intros ->. cbn. eexists. split; [reflexivity|].
  unfold confirmed. cbn. rewrite <- !app_assoc. repeat split.
Qed.

Lemma verify_body_failed a w :
  confirms self chk (w_env w) url (w_checks w) = false ->
  exists w',
    verify_body self chk url a w = (Val None, w') /\
    moved w w' 1 (if a <? max_retries - 1 then 1 else 0)
          (slept (attempt_failed chk (w_env w) url a (w_checks w) (w_navs w)))
          (attempt_failed chk (w_env w) url a (w_checks w) (w_navs w)) /\
    writes (attempt_failed chk (w_env w) url a (w_checks w) (w_navs w)) = [].
Proof.
  unfold confirms, verify_body, check, save_cookies, write_json,
    attempt_failed, goto_quietly, goto, poll. run_eff.
  destruct (chk (e_live (w_env w) (w_checks w)) url 0%nat) as [[[]|e] n'];
    cbn; [intros ->; cbn| |];
    intros; (destruct (a <? max_retries - 1); cbn;
      [destruct (e_goto_raises (w_env w) (w_navs w)); cbn|]);
    eexists; (split; [reflexivity|]); (split; [split_moved|reflexivity]).
Qed.

Lemma moved_settled w w' dc dn dt evs b :
  moved w w' dc dn dt evs -> writes evs = [] -> settled self url w w' b evs.
Proof.
  intros (H1 & _ & _ & _ & H5 & H6 & H7 & H8 & H9) Hw.
  unfold settled. repeat split; try assumption. now left.
Qed.

Lemma settled_after_moved w w1 w2 dc dn dt evs1 b evs2 :
  moved w w1 dc dn dt evs1 -> writes evs1 = [] -> settled self url w1 w2 b evs2 ->
  settled self url w w2 b (evs1 ++ evs2).
Proof.
  intros (H1 & _ & _ & _ & H5 & H6 & H7 & H8 & H9) Hw
         (K1 & K2 & K3 & K4 & K5 & K6).
  unfold settled. rewrite K1, K2, K3, K4, K5, H1, H6, H7, H8, H9.
  rewrite app_assoc, writes_app, Hw. repeat split.
  destruct K6 as [(Kf & Kw)|(Kb & Kf & Kw & Kin)].
  - left. now rewrite Kf, H5, Kw.
  - right. rewrite Kf, H5, H6, Kw. repeat split; try assumption.
    apply in_or_app. now right.
Qed.

Lemma verify_loop_total atts : forall w,
  exists b w' evs,
    verify_loop self chk url atts w = (Val b, w') /\ settled self url w w' b evs /\
    (b = false -> writes evs = []).
Proof.
  induction atts as [|a atts IH]; intros w.
  - cbn [verify_loop]. run_eff.
    eexists false, _, [Print MCouldNotVerify]. split; [reflexivity|].
    split; [|reflexivity].
    unfold settled. cbn. repeat split. now left.
  - cbn [verify_loop]. unfold Eff.bind at 1.
    destruct (confirms self chk (w_env w) url (w_checks w)) eqn:C.
    + destruct (verify_body_confirmed a w C) as (w1 & -> & Hc).
      destruct Hc as (H1 & H2 & H3 & H4 & H5 & H6 & H7 & H8 & H9).
      exists true, w1, (attempt_confirmed self url (w_jar w)).
      split; [reflexivity|]. split; [|discriminate].
      unfold settled. repeat split; try assumption.
      right. repeat split; try assumption. cbn. tauto.
    + destruct (verify_body_failed a w C) as (w1 & -> & Hm & Hw).
      destruct (IH w1) as (b & w2 & evs & Hrun & Hs & Hb).
      exists b, w2, (attempt_failed chk (w_env w) url a (w_checks w) (w_navs w) ++ evs).
      split; [exact Hrun|]. split.
      * exact (settled_after_moved _ _ _ _ _ _ _ _ _ Hm Hw Hs).
      * intros Hb'. now rewrite writes_app, Hw, (Hb Hb').
Qed.

Lemma after_wait_total logged_in w :
  exists b w' evs,
    after_wait self chk url logged_in w = (Val b, w') /\ settled self url w w' b evs /\
    (b = false -> writes evs = []) /\
    (logged_in = false -> b = false).
Proof.
  unfold after_wait. destruct logged_in.
  - unfold Eff.bind at 1 2 3 4.
    unfold print at 1 2, sleep, emit, Eff.modify, Eff.bind. cbn.
    match goal with
    | |- context [renavigate url ?w0] =>
        destruct (renavigate_total w0) as (w1 & dn & dt & evs1 & -> & Hm & Hw);
        assert (Hm0 : moved w w0 0 0 2 [Print MBlank; Print (MNavigatingTarget url); Sleep 2])
          by split_moved
    end.
    destruct (verify_loop_total (range_up max_retries) w1)
      as (b & w2 & evs2 & -> & Hs & Hb).
    pose proof (moved_trans _ _ _ _ _ _ _ _ _ _ _ Hm0 Hm) as Hm1.
    exists b, w2, (([Print MBlank; Print (MNavigatingTarget url); Sleep 2] ++ evs1) ++ evs2).
    split; [reflexivity|]. split; [|split].
    + refine (settled_after_moved _ _ _ _ _ _ _ _ _ Hm1 _ Hs).
      now rewrite writes_app, Hw.
    + intros Hb'. now rewrite !writes_app, Hw, (Hb Hb').
    + discriminate.
  - run_eff. eexists false, _, [Print MBlank; Print MLoginTimeout].
    split; [reflexivity|]. split; [|split; reflexivity].
    unfold settled. cbn. rewrite <- app_assoc. repeat split. now left.
Qed.

(** *** From the banner on *)

Lemma banner_moved (loaded : bool) w :
  exists w0,
    (print MLoginRequired ;;;
     (if loaded then print MCookiesExpired else Eff.ret tt) ;;;
     print (MPleaseLogin timeout)) w = (Val tt, w0) /\
    moved w w0 0 0 0 (banner timeout loaded) /\ writes (banner timeout loaded) = [].
Proof.
  unfold banner. destruct loaded; run_eff;
    eexists; (split; [reflexivity|]); (split; [split_moved|reflexivity]).
Qed.

Lemma login_flow_unfold (loaded : bool) w w0 :
  (print MLoginRequired ;;;
   (if loaded then print MCookiesExpired else Eff.ret tt) ;;;
   print (MPleaseLogin timeout)) w = (Val tt, w0) ->
  login_flow self chk url timeout loaded w
  = (logged_in <- wait_loop chk url timeout (range_down timeout 0) ;;
     after_wait self chk url logged_in) w0.
Proof.
  unfold login_flow. destruct loaded; run_eff; now intros [= <-].
Qed.

Lemma login_flow_total loaded w :
  exists b w' evs,
    login_flow self chk url timeout loaded w = (Val b, w') /\
    settled self url w w' b evs /\
    (writes evs = [] \/ exists el, In (Print (MLoginDetected el)) evs).
Proof.
  destruct (banner_moved loaded w) as (w0 & Hrun0 & Hm0 & Hw0).
  rewrite (login_flow_unfold loaded w w0 Hrun0). unfold Eff.bind.
  destruct (wait_loop_total (range_down timeout 0) w0)
    as (hit & w1 & dc & dt & evs1 & -> & Hm1 & Hw1 & Hhit).
  destruct (after_wait_total hit w1) as (b & w2 & evs2 & -> & Hs & Hb & Hno).
  pose proof (moved_trans _ _ _ _ _ _ _ _ _ _ _ Hm0 Hm1) as Hm.
  exists b, w2, ((banner timeout loaded ++ evs1) ++ evs2).
  split; [reflexivity|]. split.
  - refine (settled_after_moved _ _ _ _ _ _ _ _ _ Hm _ Hs).
    now rewrite writes_app, Hw0, Hw1.
  - destruct hit.
    + right. destruct (Hhit eq_refl) as (el & Hin). exists el.
      apply in_or_app. left. apply in_or_app. now right.
    + left. rewrite !writes_app, Hw0, Hw1, (Hb (Hno eq_refl)). reflexivity.
Qed.

(** The flow when no poll of the countdown answers [True]. *)
Lemma login_flow_timeout loaded w :
  0 <= timeout ->
  (forall k, (k < polls (range_down timeout 0))%nat ->
             poll chk (w_env w) url (k + w_checks w) <> Val true) ->
  exists w',
    login_flow self chk url timeout loaded w = (Val false, w') /\
    moved w w' (polls (range_down timeout 0)) 0 timeout
          (banner timeout loaded ++ wait_passes url (range_down timeout 0) ++
           [Print MBlank; Print MLoginTimeout]).
Proof.
  intros Ht Hpolls.
  destruct (banner_moved loaded w) as (w0 & Hrun0 & Hm0 & Hw0).
  rewrite (login_flow_unfold loaded w w0 Hrun0). unfold Eff.bind.
  destruct (wait_loop_pass (range_down timeout 0) w0) as (w1 & -> & Hm1).
  { intros k Hk. destruct Hm0 as (-> & -> & _). now apply Hpolls. }
  rewrite range_down_length in Hm1.
  unfold after_wait. run_eff. eexists. split; [reflexivity|].
  clear Hrun0 Hpolls. unfold banner in *.
  replace (Z.of_nat (Z.to_nat (timeout - 0))) with timeout in Hm1 by lia.
  by_moved.
Qed.

(** *** The whole call *)

Lemma handle_authentication_entry w :
  exists loaded w1 evs_load,
    w_env w1 = w_env w /\ w_checks w1 = w_checks w /\
    w_navs w1 = S (w_navs w) /\ w_clock w1 = w_clock w /\
    w_files w1 = w_files w /\
    w_trace w1
    = w_trace w ++
      Print (MChecking url) :: evs_load ++ [Print (MNavigating url); Goto url] /\
    forallb is_load_event evs_load = true /\
    w_browser_open w1 = w_browser_open w /\
    w_context_open w1 = w_context_open w /\
    handle_authentication_with self chk url timeout w
    = if e_goto_raises (w_env w) (w_navs w)
      then (Exc NavigationError, w1)
      else settle_and_check self chk url timeout loaded w1.
Proof.
  unfold handle_authentication_with.
  unfold Eff.bind at 1 2. unfold print at 1, emit, Eff.modify.
  match goal with
  | |- context [load_cookies self url ?w0] =>
      destruct (LoadFacts.load_cookies_frame self url w0)
        as (loaded & w1 & evs & -> & H1 & H2 & H3 & H4 & H5 & H6 & H7 & H8 & H9 & H10)
  end.
  cbn in H1, H2, H3, H4, H5, H6, H8, H9.
  unfold Eff.bind at 1 2. unfold print at 1, goto, emit, Eff.modify.
  unfold Eff.bind at 1 2 3, Eff.get. cbn.
  rewrite H1, H3.
  eexists loaded, _, evs.
  split; [|split; [|split; [|split; [|split; [|split; [|split; [|split; [|split]]]]]]]];
    [.. | destruct (e_goto_raises (w_env w) (w_navs w)); reflexivity]; cbn;
    try assumption; try reflexivity.
  rewrite H6. cbn. rewrite <- !app_assoc. reflexivity.
Qed.

Local Arguments login_flow : simpl never.

Lemma settle_and_check_run loaded w :
  (poll chk (w_env w) url (w_checks w) = Val true /\
   exists w', settle_and_check self chk url timeout loaded w = (Val true, w') /\
              moved w w' 1 0 5 [Sleep 5; CheckLogin url; Print MAlreadyLoggedIn]) \/
  (poll chk (w_env w) url (w_checks w) <> Val true /\
   exists w' evs,
     settle_and_check self chk url timeout loaded w = login_flow self chk url timeout loaded w' /\
     moved w w' 1 0 5 ([Sleep 5; CheckLogin url] ++ evs) /\ writes evs = []).
Proof.
  unfold settle_and_check, initial_check, check, poll. run_eff.
  destruct (chk (e_live (w_env w) (w_checks w)) url 0%nat) as [[[]|e] n']; cbn.
  - left. split; [reflexivity|]. eexists. split; [reflexivity|split_moved].
  - right. split; [discriminate|]. eexists _, []. 
    split; [reflexivity|]. split; [split_moved|reflexivity].
  - right. split; [discriminate|]. eexists _, [Print (MInitialCheckError e)].
    split; [reflexivity|]. split; [split_moved|reflexivity].
Qed.

(** *** The verification phase, attempt by attempt *)

Lemma slept_attempt_failed env a k n :
  slept (attempt_failed chk env url a k n)
  = if a <? max_retries - 1
    then (if e_goto_raises env n then 2 else 5) else 0.
Proof.
  unfold attempt_failed. cbn [slept].
  rewrite slept_app.
  destruct (poll chk env url k) as [[]|e];
    destruct (a <? max_retries - 1); try destruct (e_goto_raises env n);
    reflexivity.
Qed.

Lemma verify_failed_prefix atts : forall w,
  (forall j, (j < length atts)%nat ->
             confirms self chk (w_env w) url (j + w_checks w) = false) ->
  exists w1,
    (forall rest, verify_loop self chk url (atts ++ rest) w
                  = verify_loop self chk url rest w1) /\
    moved w w1 (length atts) (retries atts)
          (slept (attempts_failed chk (w_env w) url atts (w_checks w) (w_navs w)))
          (attempts_failed chk (w_env w) url atts (w_checks w) (w_navs w)) /\
    writes (attempts_failed chk (w_env w) url atts (w_checks w) (w_navs w)) = [].
Proof.
  induction atts as [|a atts IH]; intros w H.
  - exists w. split; [reflexivity|]. split; [apply moved_refl|reflexivity].
  - destruct (verify_body_failed a w (H 0%nat ltac:(cbn; lia)))
      as (w1 & Hrun & Hm & Hw).
    destruct (IH w1) as (w2 & Hrest & Hm2 & Hw2).
    { intros j Hj. destruct Hm as (-> & -> & _).
      replace (j + (1 + w_checks w))%nat with (S j + w_checks w)%nat by lia.
      apply H. cbn. lia. }
    assert (Hk : w_checks w1 = S (w_checks w)) by (now destruct Hm as (_ & -> & _)).
    assert (Hn : w_navs w1 = if a <? max_retries - 1 then S (w_navs w) else w_navs w).
    { destruct Hm as (_ & _ & -> & _). now destruct (a <? max_retries - 1). }
    assert (He : w_env w1 = w_env w) by (now destruct Hm as (-> & _)).
    rewrite Hk, Hn, He in Hm2, Hw2.
    exists w2. split; [|split].
    + intros rest. cbn [app verify_loop]. unfold Eff.bind at 1.
      rewrite Hrun. apply Hrest.
    + cbn [attempts_failed]. rewrite slept_app.
      pose proof (moved_trans _ _ _ _ _ _ _ _ _ _ _ Hm Hm2) as Hm3.
      replace (length (a :: atts)) with (length atts + 1)%nat by (cbn; lia).
      replace (retries (a :: atts))
        with (retries atts + (if (a <? max_retries - 1)%Z then 1 else 0))%nat.
      * exact Hm3.
      * unfold retries. cbn [List.filter].
        destruct (a <? max_retries - 1); cbn [length]; lia.
    + cbn [attempts_failed]. now rewrite writes_app, Hw, Hw2.
Qed.
End Loop.

(** *** The claims about the orchestrator *)

Lemma wait_pass_events url i :
  (In (CheckLogin url) (wait_pass url i) <-> i mod 3 = 0) /\
  (In (Print (MStillWaiting i)) (wait_pass url i) <-> i mod 9 = 0) /\
  slept (wait_pass url i) = 1.
Proof.
  split; [|split; [|apply slept_wait_pass]].
  - unfold wait_pass. destruct (i mod 3 =? 0) eqn:E3.
    + apply Z.eqb_eq in E3. split; [now intros _|]. intros _. now left.
    + apply Z.eqb_neq in E3. cbn. split; [|contradiction].
      intros [H|[H|[]]]; discriminate.
  - unfold wait_pass. destruct (i mod 3 =? 0) eqn:E3.
    + destruct (i mod 9 =? 0) eqn:E9.
      * apply Z.eqb_eq in E9. split; [now intros _|]. intros _. right. now left.
      * apply Z.eqb_neq in E9. cbn. split; [|contradiction].
        intros [H|[H|[H|[]]]]; discriminate.
    + apply Z.eqb_neq in E3. cbn. split.
      * intros [H|[H|[]]]; discriminate.
      * intros H9. exfalso. apply E3. clear E3.
        Z.div_mod_to_equations. lia.
Qed.

(** The whole call when the first navigation succeeds and neither the
    first check nor any poll of the countdown answers [True]. *)
Lemma handle_authentication_timeout self chk url t w :
  0 <= t ->
  e_goto_raises (w_env w) (w_navs w) = false ->
  (forall k, (k <= polls (range_down t 0))%nat ->
             poll chk (w_env w) url (k + w_checks w) <> Val true) ->
  let r := handle_authentication_with self chk url t w in
  fst r = Val false /\ w_clock (snd r) = w_clock w + 5 + t /\
  w_files (snd r) = w_files w /\
  w_checks (snd r) = (S (polls (range_down t 0)) + w_checks w)%nat.
Proof.
  intros Ht Hgo Hpoll r. subst r.
  destruct (handle_authentication_entry self chk url t w)
    as (loaded & w1 & evs & E1 & E2 & E3 & E4 & E5 & E6 & E7 & E8 & E9 & ->).
  rewrite Hgo.
  destruct (settle_and_check_run self chk url t loaded w1)
    as [(P & _)|(_ & w2 & evs2 & -> & Hm2 & Hw2)].
  { exfalso. rewrite E1, E2 in P. apply (Hpoll 0%nat); [lia|exact P]. }
  destruct (login_flow_timeout self chk url t loaded w2 Ht) as (w3 & -> & Hm3).
  { intros k Hk. destruct Hm2 as (-> & -> & _). rewrite E1, E2.
    replace (k + (1 + w_checks w))%nat with (S k + w_checks w)%nat by lia.
    apply Hpoll. lia. }
  cbn [fst snd].
  destruct Hm2 as (_ & K2 & _ & K4 & K5 & _).
  destruct Hm3 as (_ & L2 & _ & L4 & L5 & _).
  rewrite L2, L4, L5, K2, K4, K5, E2, E4, E5. repeat split; lia.
Qed.

(** C2.  For a timeout of at least 1 the countdown goes through the
    counts [t, t-1, ..., 1]; a pass at count [i] polls [is_logged_in]
    exactly when [i] is divisible by 3, prints the reminder exactly when
    [i] is divisible by 9 (the poll of that pass not having answered
    [True]), and sleeps one second.  If no poll answers [True] the loop
    makes all [t] passes, sleeping [t] seconds, and
    [handle_authentication] returns [False]; if the poll at count [i] is
    the first to answer [True] the loop stops there, having made the
    passes of the counts above [i] only and slept [t - i] seconds. *)
Theorem countdown_schedule :
  forall self chk url t w,
    1 <= t ->
    let env := w_env w in
    let base := w_checks w in
    (forall i, 1 <= i <= t ->
       range_down t 0 = range_down t i ++ i :: range_down (i - 1) 0) /\
    (forall i,
       (In (CheckLogin url) (wait_pass url i) <-> i mod 3 = 0) /\
       (In (Print (MStillWaiting i)) (wait_pass url i) <-> i mod 9 = 0) /\
       slept (wait_pass url i) = 1) /\
    ((forall k, (k < polls (range_down t 0))%nat ->
                poll chk env url (k + base) <> Val true) ->
     exists w',
       wait_loop chk url t (range_down t 0) w = (Val false, w') /\
       moved w w' (polls (range_down t 0)) 0 t
             (wait_passes url (range_down t 0)) /\
       slept (wait_passes url (range_down t 0)) = t /\
       fst (after_wait self chk url false w') = Val false) /\
    (forall i, 1 <= i <= t -> i mod 3 = 0 ->
       (forall k, (k < polls (range_down t i))%nat ->
                  poll chk env url (k + base) <> Val true) ->
       poll chk env url (polls (range_down t i) + base) = Val true ->
       exists w',
         wait_loop chk url t (range_down t 0) w = (Val true, w') /\
         moved w w' (S (polls (range_down t i))) 0 (t - i)
               (wait_passes url (range_down t i) ++ wait_hit url t i) /\
         slept (wait_passes url (range_down t i) ++ wait_hit url t i) = t - i) /\
    (e_goto_raises env (w_navs w) = false ->
     (forall k, (k <= polls (range_down t 0))%nat ->
                poll chk env url (k + base) <> Val true) ->
     let r := handle_authentication_with self chk url t w in
     fst r = Val false /\ w_clock (snd r) = w_clock w + 5 + t /\
     w_files (snd r) = w_files w /\
     w_checks (snd r) = (S (polls (range_down t 0)) + base)%nat).
Proof.
  intros self chk url t w Ht env base. subst env base.
  assert (Hsplit : forall i, 1 <= i <= t ->
            range_down t 0 = range_down t i ++ i :: range_down (i - 1) 0).
  { intros i Hi. rewrite (range_down_split t i 0) by lia.
    now rewrite (range_down_cons i 0) by lia. }
  split; [exact Hsplit|]. split; [apply wait_pass_events|].
  split; [|split].
  - intros Hall.
    destruct (wait_loop_pass chk url t (range_down t 0) w Hall) as (w' & Hrun & Hm).
    rewrite range_down_length in Hm.
    replace (Z.of_nat (Z.to_nat (t - 0))) with t in Hm by lia.
    exists w'. split; [exact Hrun|]. split; [exact Hm|]. split.
    + rewrite slept_wait_passes, range_down_length. lia.
    + destruct (after_wait_total self chk url false w')
        as (b & w2 & evs & -> & _ & _ & Hb). now rewrite (Hb eq_refl).
  - intros i Hi H3 Hbefore Hhit. rewrite (Hsplit i Hi).
    destruct (wait_loop_hit chk url t (range_down t i) i (range_down (i - 1) 0)
                w H3 Hbefore Hhit) as (w' & Hrun & Hm).
    rewrite range_down_length in Hm.
    replace (Z.of_nat (Z.to_nat (t - i))) with (t - i) in Hm by lia.
    exists w'. split; [exact Hrun|]. split; [exact Hm|].
    rewrite slept_app, slept_wait_passes, range_down_length. cbn. lia.
  - intros Hgo Hall. apply handle_authentication_timeout; [lia|exact Hgo|exact Hall].
Qed.

Lemma writes_load_events evs : forallb is_load_event evs = true -> writes evs = [].
Proof.
  induction evs as [|e evs IH]; [reflexivity|].
  cbn [forallb]. intros [He Hevs]%andb_true_iff.
  destruct e as [m| | | | |]; try discriminate; cbn [writes]; auto.
Qed.



(** C4.  A call changes the cookie file of the URL's key only on the
    path where the countdown detected the login and a verification
    attempt reached the target: the file then holds the jar, was written
    once, and the call returns [True].  When the first check after the
    first navigation answers [True] the call returns [True] after that
    one check and the 5 seconds of settling, with no countdown and no
    write; and a call that returns [False] (timeout or exhausted
    verification) has written nothing. *)
Theorem cookie_file_written_only_when_verified :
  forall self chk url t w,
    let r := handle_authentication_with self chk url t w in
    let file := cookie_file self url in
    exists evs,
      w_trace (snd r) = w_trace w ++ evs /\
      ((w_files (snd r) = w_files w /\ writes evs = []) \/
       (fst r = Val true /\
        w_files (snd r) = <[file := CookieJson (w_jar (snd r))]> (w_files w) /\
        writes evs = [file] /\
        (exists el, In (Print (MLoginDetected el)) evs) /\
        In (Print MReachedTarget) evs)) /\
      (e_goto_raises (w_env w) (w_navs w) = false ->
       poll chk (w_env w) url (w_checks w) = Val true ->
       fst r = Val true /\ w_files (snd r) = w_files w /\
       w_checks (snd r) = S (w_checks w) /\ w_clock (snd r) = w_clock w + 5 /\
       exists evs_load,
         forallb is_load_event evs_load = true /\
         evs = Print (MChecking url) :: evs_load ++
               [Print (MNavigating url); Goto url; Sleep 5; CheckLogin url;
                Print MAlreadyLoggedIn]) /\
      (fst r = Val false -> w_files (snd r) = w_files w /\ writes evs = []).
Proof.
  intros self chk url t w r file. subst r file.
  destruct (handle_authentication_entry self chk url t w)
    as (loaded & w1 & evs & E1 & E2 & E3 & E4 & E5 & E6 & E7 & E8 & E9 & ->).
  pose proof (writes_load_events evs E7) as Hwl.
  assert (Hw1 : writes (Print (MChecking url) :: evs ++ [Print (MNavigating url); Goto url]) = []).
  { cbn [writes]. now rewrite writes_app, Hwl. }
  destruct (e_goto_raises (w_env w) (w_navs w)).
  - cbn [fst snd]. eexists. split; [exact E6|]. split; [|split].
    + left. now split.
    + discriminate.
    + discriminate.
  - destruct (settle_and_check_run self chk url t loaded w1)
      as [(P & w2 & -> & Hm)|(P & w2 & evs2 & -> & Hm & Hw2)].
    + cbn [fst snd].
      destruct Hm as (K1 & K2 & K3 & K4 & K5 & K6 & K7 & K8 & K9).
      exists ((Print (MChecking url) :: evs ++ [Print (MNavigating url); Goto url]) ++
              [Sleep 5; CheckLogin url; Print MAlreadyLoggedIn]).
      split; [rewrite K7, E6; now rewrite app_assoc|].
      split; [|split].
      * left. split; [now rewrite K5|]. now rewrite writes_app, Hw1.
      * intros _ _. split; [reflexivity|]. split; [now rewrite K5|].
        split; [now rewrite K2, E2|]. split; [rewrite K4, E4; lia|].
        exists evs. split; [exact E7|]. cbn. now rewrite <- app_assoc.
      * discriminate.
    + destruct (login_flow_total self chk url t loaded w2)
        as (b & w3 & evs3 & -> & Hs & Hdet).
      cbn [fst snd].
      destruct Hm as (K1 & K2 & K3 & K4 & K5 & K6 & K7 & K8 & K9).
      destruct Hs as (L1 & L2 & L3 & L4 & L5 & L6).
      exists (((Print (MChecking url) :: evs ++ [Print (MNavigating url); Goto url]) ++
               ([Sleep 5; CheckLogin url] ++ evs2)) ++ evs3).
      split; [rewrite L3, K7, E6; now rewrite !app_assoc|].
      assert (Hpre : writes ((Print (MChecking url) :: evs ++
                                [Print (MNavigating url); Goto url]) ++
                             [Sleep 5; CheckLogin url] ++ evs2) = []).
      { rewrite writes_app, Hw1. cbn. exact Hw2. }
      split; [|split].
      * destruct L6 as [(Lf & Lw)|(Lb & Lf & Lw & Lin)].
        -- left. split; [now rewrite Lf, K5|]. now rewrite writes_app, Hpre, Lw.
        -- right. split; [now rewrite Lb|]. split; [now rewrite Lf, L2, K5, E5|].
           split; [now rewrite writes_app, Hpre, Lw|]. split.
           ++ destruct Hdet as [Hno|(el & Hin)]; [rewrite Hno in Lw; discriminate|].
              exists el. apply in_or_app. now right.
           ++ apply in_or_app. now right.
      * intros _ Htrue. exfalso. apply P. now rewrite E1, E2.
      * intros [= ->]. destruct L6 as [(Lf & Lw)|(Lb & _)]; [|discriminate].
        split; [now rewrite Lf, K5|]. now rewrite writes_app, Hpre, Lw.
Qed.

(** C3 as stated fails on the retry schedule: with the login seen at the
    first poll of a 3-second countdown and lost afterwards, and the
    navigations after the failed attempts raising, each failed attempt is
    followed by the 2 seconds and the navigation only - the 3 seconds are
    skipped - before the next attempt. *)
Lemma verification_retry_skips_settling :
  let r := handle_authentication default Scenario.target 3 Scenario.lost_again in
  fst r = Val false /\
  w_trace (snd r)
  = [Print (MChecking Scenario.target); Print (MNavigating Scenario.target);
     Goto Scenario.target; Sleep 5; CheckLogin Scenario.target;
     Print MLoginRequired; Print (MPleaseLogin 3);
     CheckLogin Scenario.target; Print (MLoginDetected 0); Print MBlank;
     Print (MNavigatingTarget Scenario.target); Sleep 2;
     Goto Scenario.target; Sleep 5;
     CheckLogin Scenario.target; Sleep 2; Goto Scenario.target;
     CheckLogin Scenario.target; Sleep 2; Goto Scenario.target;
     CheckLogin Scenario.target; Print MCouldNotVerify].
Proof. vm_compute. split; reflexivity. Qed.

(** C3, as the code has it.  After a detected login and the way back to
    the target, the verification loop makes the attempts 0, 1 and 2.  An
    attempt confirms when [is_logged_in] answers [True] and the cookie
    file can be written: the first such attempt writes the jar to the
    file, once, and the call returns [True].  An attempt that does not
    confirm - the check answered [False] or raised, or the write raised -
    is followed, when it is not the last, by 2 seconds, a navigation and,
    only when that navigation did not raise, 3 more seconds, and by the
    next attempt.  After three such attempts the call returns [False] and
    no file has been written. *)
Theorem verification_phase :
  forall self chk url w,
    let env := w_env w in
    let base := w_checks w in
    let nb := w_navs w in
    let file := cookie_file self url in
    let attempts := range_up max_retries in
    attempts = [0; 1; 2] /\
    (forall w0, exists w1 dn dt evs,
       writes evs = [] /\
       moved w0 w1 0 dn dt
             ([Print MBlank; Print (MNavigatingTarget url); Sleep 2] ++ evs) /\
       after_wait self chk url true w0 = verify_loop self chk url attempts w1) /\
    (forall a k n,
       slept (attempt_failed chk env url a k n)
       = if a <? 2 then (if e_goto_raises env n then 2 else 5) else 0) /\
    (forall pre a post,
       attempts = pre ++ a :: post ->
       (forall j, (j < length pre)%nat ->
                  confirms self chk env url (j + base) = false) ->
       confirms self chk env url (length pre + base) = true ->
       exists w',
         verify_loop self chk url attempts w = (Val true, w') /\
         w_trace w'
         = w_trace w ++ attempts_failed chk env url pre base nb ++
           attempt_confirmed self url (w_jar w) /\
         writes (attempts_failed chk env url pre base nb ++
                 attempt_confirmed self url (w_jar w)) = [file] /\
         w_files w' = <[file := CookieJson (w_jar w)]> (w_files w) /\
         w_checks w' = (S (length pre) + base)%nat) /\
    ((forall j, (j < 3)%nat -> confirms self chk env url (j + base) = false) ->
     exists w',
       verify_loop self chk url attempts w = (Val false, w') /\
       moved w w' 3 2 (slept (attempts_failed chk env url attempts base nb))
             (attempts_failed chk env url attempts base nb ++
              [Print MCouldNotVerify]) /\
       writes (attempts_failed chk env url attempts base nb ++
               [Print MCouldNotVerify]) = []).
Proof.
  intros self chk url w env base nb file attempts.
  subst env base nb file attempts.
  split; [reflexivity|]. split; [|split; [|split]].
  - intros w0. unfold after_wait.
    unfold Eff.bind at 1 2 3 4.
    unfold print at 1 2, sleep, emit, Eff.modify, Eff.bind. cbn.
    match goal with
    | |- context [renavigate url ?w'] =>
        destruct (renavigate_total url w') as (w1 & dn & dt & evs & -> & Hm & Hw);
        assert (Hm0 : moved w0 w' 0 0 2
                        [Print MBlank; Print (MNavigatingTarget url); Sleep 2])
          by split_moved
    end.
    exists w1, (dn + 0)%nat, (2 + dt), evs.
    split; [exact Hw|]. split; [|reflexivity].
    exact (moved_trans _ _ _ _ _ _ _ _ _ _ _ Hm0 Hm).
  - intros a k n. apply slept_attempt_failed.
  - intros pre a post Hsplit Hpre Hhit.
    destruct (verify_failed_prefix self chk url pre w Hpre) as (w1 & Hrest & Hm & Hw).
    destruct (verify_body_confirmed self chk url a w1) as (w2 & Hrun & Hc).
    { destruct Hm as (-> & -> & _). exact Hhit. }
    exists w2. rewrite Hsplit, Hrest. cbn [verify_loop]. unfold Eff.bind at 1.
    rewrite Hrun. split; [reflexivity|].
    destruct Hm as (K1 & K2 & K3 & K4 & K5 & K6 & K7 & K8 & K9).
    destruct Hc as (L1 & L2 & L3 & L4 & L5 & L6 & L7 & L8 & L9).
    rewrite L7, L5, L2, K7, K6, K5, K2. rewrite writes_app, Hw.
    rewrite <- app_assoc. repeat split.
  - intros Hall.
    destruct (verify_failed_prefix self chk url [0; 1; 2] w) as (w1 & Hrest & Hm & Hw).
    { intros j Hj. apply Hall. cbn in Hj. lia. }
    specialize (Hrest []). cbn [app] in Hrest.
    change (range_up max_retries) with [0; 1; 2]. rewrite Hrest.
    cbn [verify_loop]. unfold Eff.bind, print, emit, Eff.modify, Eff.ret.
    eexists. split; [reflexivity|]. split.
    + change (retries [0; 1; 2]) with 2%nat in Hm.
      change (length [0; 1; 2]) with 3%nat in Hm.
      assert (Hm2 : moved w1 (with_trace (w_trace w1 ++ [Print MCouldNotVerify]) w1)
                      0 0 0 [Print MCouldNotVerify]) by split_moved.
      pose proof (moved_trans _ _ _ _ _ _ _ _ _ _ _ Hm Hm2) as Hm3.
      rewrite Z.add_0_r in Hm3. exact Hm3.
    + now rewrite writes_app, Hw.
Qed.

Lemma verification_phase_witness :
  exists w',
    verify_loop default Detector.is_logged_in Scenario.target
      (range_up max_retries) Scenario.valid_session = (Val true, w') /\
    w_files w'
    = <[cookie_file default Scenario.target := CookieJson []]> ∅.
Proof.
  destruct (verification_phase default Detector.is_logged_in Scenario.target
              Scenario.valid_session) as (_ & _ & _ & H & _).
  destruct (H [] 0 [1; 2] eq_refl) as (w' & Hrun & _ & _ & Hfiles & _).
  - intros j Hj. cbn in Hj. lia.
  - reflexivity.
  - exists w'. split; [exact Hrun|exact Hfiles].
Defined.

Lemma countdown_schedule_witness :
  fst (handle_authentication default Scenario.target 9 Scenario.nobody) = Val false.
Proof.
  destruct (countdown_schedule default Detector.is_logged_in Scenario.target 9
              Scenario.nobody ltac:(lia)) as (_ & _ & _ & _ & H).
  apply H; [reflexivity|].
  intros k Hk. 
  assert (Hk' : (k < 1000)%nat) by (vm_compute in Hk; lia).
  unfold poll, Scenario.nobody, Scenario.fresh, Scenario.env_of, Scenario.logs_in_at.
  cbn [w_env e_live w_checks]. rewrite Nat.add_0_r.
  destruct (Nat.ltb_spec k 1000) as [_|Hge]; [|lia].
  vm_compute. discriminate.
Defined.

Lemma cookie_file_written_only_when_verified_witness :
  let r := handle_authentication default Scenario.target 60 Scenario.valid_session in
  fst r = Val true /\ w_files (snd r) = ∅.
Proof.
  destruct (cookie_file_written_only_when_verified default Detector.is_logged_in
              Scenario.target 60 Scenario.valid_session)
    as (evs & _ & _ & H & _).
  destruct (H eq_refl eq_refl) as (Hr & Hf & _).
  split; [exact Hr|exact Hf].
Defined.
End OrchestratorFacts.

(** ** The per-URL procedure *)

Module ScraperFacts.
Import Browser Scraper.

End ScraperFacts.

(** ** Stripping and splitting *)

Module TextFacts.
Import Str Text StrFacts.

Lemma lstrip_idem s : lstrip (lstrip s) = lstrip s.
Proof.
  induction s as [|c s IH]; [reflexivity|]. cbn [lstrip].
  destruct (is_space c) eqn:E; [exact IH|]. cbn [lstrip]. now rewrite E.
Qed.

Lemma rstrip_idem s : rstrip (rstrip s) = rstrip s.
Proof.
  induction s as [|c s IH]; [reflexivity|]. cbn [rstrip].
  destruct (rstrip s) as [|c' r'] eqn:E.
  - destruct (is_space c) eqn:Ec; [reflexivity|]. cbn [rstrip]. now rewrite Ec.
  - cbn [rstrip] in *. destruct (rstrip r') as [|c2 r2].
    + destruct (is_space c'); [discriminate|]. injection IH as ->. reflexivity.
    + now rewrite IH.
Qed.

(** What [rstrip] leaves starts as the text did. *)
Lemma rstrip_head c r :
  is_space c = false -> exists r', rstrip (String c r) = String c r'.
Proof.
  intros Hc. cbn [rstrip]. destruct (rstrip r); [rewrite Hc|]; eauto.
Qed.

Lemma lstrip_head s :
  lstrip s = EmptyString \/ exists c r, lstrip s = String c r /\ is_space c = false.
Proof.
  induction s as [|c s IH]; [now left|]. cbn [lstrip].
  destruct (is_space c) eqn:E; [exact IH|]. right. eauto.
Qed.

Lemma strip_trimmed s : trimmed (strip s).
Proof.
  unfold trimmed, strip. split; [|apply rstrip_idem].
  destruct (lstrip_head s) as [->|(c & r & -> & Hc)]; [reflexivity|].
  destruct (rstrip_head c r Hc) as (r' & ->). cbn [lstrip]. now rewrite Hc.
Qed.

Lemma strip_of_trimmed s : trimmed s -> strip s = s.
Proof. intros [Hl Hr]. unfold strip. now rewrite Hl, Hr. Qed.

Lemma strip_idem s : strip (strip s) = strip s.
Proof. apply strip_of_trimmed, strip_trimmed. Qed.

Lemma all_lstrip p s : all p s = true -> all p (lstrip s) = true.
Proof.
  induction s as [|c s IH]; [reflexivity|]. cbn [lstrip]. intros H.
  destruct (is_space c); [|exact H]. cbn [all] in H.
  apply andb_true_iff in H as [_ H]. auto.
Qed.

Lemma all_rstrip p s : all p s = true -> all p (rstrip s) = true.
Proof.
  induction s as [|c s IH]; [reflexivity|]. cbn [rstrip all].
  intros [Hc Hs]%andb_true_iff. specialize (IH Hs).
  destruct (rstrip s) as [|c' r'].
  - destruct (is_space c); [reflexivity|]. cbn [all]. now rewrite Hc.
  - cbn [all] in *. now rewrite Hc, IH.
Qed.

Lemma all_strip p s : all p s = true -> all p (strip s) = true.
Proof. intros H. now apply all_rstrip, all_lstrip. Qed.

Lemma all_keep p s : all p (keep p s) = true.
Proof.
  induction s as [|c s IH]; [reflexivity|]. cbn [keep].
  destruct (p c) eqn:E; [|exact IH]. cbn [all]. now rewrite E, IH.
Qed.

Lemma all_keep_other p q s : all q s = true -> all q (keep p s) = true.
Proof.
  induction s as [|c s IH]; [reflexivity|]. cbn [keep all].
  intros [Hc Hs]%andb_true_iff.
  destruct (p c); [cbn [all]; rewrite Hc|]; auto.
Qed.

Lemma keep_fixed p s : all p s = true -> keep p s = s.
Proof.
  induction s as [|c s IH]; [reflexivity|]. cbn [keep all].
  intros [Hc Hs]%andb_true_iff. now rewrite Hc, (IH Hs).
Qed.

Lemma map_fixed f s : all (fun c => eqc (f c) c) s = true -> map f s = s.
Proof.
  induction s as [|c s IH]; [reflexivity|]. cbn [map all].
  intros [Hc Hs]%andb_true_iff. apply eqc_true in Hc. now rewrite Hc, (IH Hs).
Qed.

Lemma starts_with_split p s :
  starts_with p s = true -> exists r, s = p +:+ r.
Proof.
  revert s. induction p as [|a p IH]; intros s H; [now exists s|].
  destruct s as [|b s]; [discriminate|]. cbn [starts_with] in H.
  apply andb_true_iff in H as [Hab Hp]. apply eqc_true in Hab as ->.
  destruct (IH s Hp) as (r & ->). now exists r.
Qed.

Lemma starts_with_app p r : starts_with p (p +:+ r) = true.
Proof.
  induction p as [|a p IH]; [reflexivity|].
  rewrite app_cons. cbn [starts_with]. unfold eqc.
  now rewrite Ascii.eqb_refl, IH.
Qed.

Lemma split_on_not_nil d s : split_on d s <> [].
Proof.
  induction s as [|c s IH]; [discriminate|]. cbn [split_on].
  destruct (eqc c d); [discriminate|].
  destruct (split_on d s); [contradiction|discriminate].
Qed.


(** Trimmed text stays trimmed when its spaces become underscores. *)
Lemma trimmed_replace_space s :
  trimmed s -> trimmed (replace_char " " "_" s).
Proof.
  unfold trimmed, replace_char. intros [Hl Hr]. split.
  - destruct s as [|c s]; [reflexivity|]. cbn [lstrip] in Hl.
    destruct (is_space c) eqn:Ec.
    + exfalso. assert (Hlen : forall t, (String.length (lstrip t) <= String.length t)%nat).
      { clear. induction t as [|a t IH]; cbn; [lia|].
        destruct (is_space a); cbn; lia. }
      specialize (Hlen s). rewrite Hl in Hlen. cbn in Hlen. lia.
    + cbn [map lstrip]. destruct (eqc c " ") eqn:E.
      * apply eqc_true in E. subst c. discriminate.
      * now rewrite Ec.
  - clear Hl. induction s as [|c s IH]; [reflexivity|].
    cbn [rstrip] in Hr. cbn [map rstrip].
    destruct (rstrip s) as [|c' r'] eqn:E.
    + destruct (is_space c) eqn:Ec; [discriminate|]. injection Hr as <-.
      cbn [map rstrip]. destruct (eqc c " ") eqn:E'.
      * apply eqc_true in E'. subst c. discriminate.
      * now rewrite Ec.
    + injection Hr as Hs. subst s. specialize (IH eq_refl).
      cbn [map] in IH |- *. now rewrite IH.
Qed.

End TextFacts.

(** ** File and folder names *)

Module NamesFacts.
Import Str Text Names StrFacts TextFacts.

Lemma lstrip_spaces s : all is_space s = true -> lstrip s = "".
Proof.
  induction s as [|c s IH]; [reflexivity|]. cbn [all lstrip].
  intros [Hc Hs]%andb_true_iff. rewrite Hc. auto.
Qed.

Lemma all_replace_space s :
  all kept s = true ->
  all (fun c => negb (eqc c " ") && kept c) (replace_char " " "_" s) = true.
Proof.
  unfold replace_char. induction s as [|c s IH]; [reflexivity|].
  cbn [all map]. intros [Hc Hs]%andb_true_iff. rewrite (IH Hs), andb_true_r.
  destruct (eqc c " ") eqn:E; [reflexivity|]. now rewrite E, Hc.
Qed.

Lemma kept_not_space_class c :
  negb (eqc c " ") && kept c = true ->
  is_word c || eqc c "-" || (is_space c && negb (eqc c " ")) = true.
Proof.
  unfold kept. destruct (eqc c " "); [discriminate|].
  destruct (is_word c), (is_space c), (eqc c "-"); cbn; congruence.
Qed.

(** The name [__safe_filename_from] makes of an ASCII title holds no
    space; its characters are word characters, hyphens and whitespace
    other than the space; it has no whitespace at either end; and it is a
    fixed point, so a name can be sanitized again without changing.  A
    title without any word character or hyphen gives the empty name, and
    so the folder [_data]. *)
Theorem safe_filename_shape :
  forall title,
    all is_ascii title = true ->
    let name := __safe_filename_from title in
    all (fun c => negb (eqc c " ")) name = true /\
    all (fun c => is_word c || eqc c "-" || (is_space c && negb (eqc c " ")))
        name = true /\
    trimmed name /\
    __safe_filename_from name = name /\
    (all (fun c => negb (is_word c) && negb (eqc c "-")) title = true ->
     name = "" /\ page_folder title = "_data").
Proof.
  intros title _ name. subst name. unfold __safe_filename_from.
  set (s := strip (keep kept title)).
  assert (Hs : all kept s = true) by apply all_strip, all_keep.
  assert (Ht : trimmed s) by apply strip_trimmed.
  pose proof (all_replace_space s Hs) as Hn.
  pose proof (trimmed_replace_space s Ht) as Htn.
  set (name := replace_char " " "_" s) in *.
  assert (Hnospace : all (fun c => negb (eqc c " ")) name = true).
  { revert Hn. apply all_impl. now intros c [H _]%andb_true_iff. }
  split; [exact Hnospace|]. split; [|split; [exact Htn|split]].
  - revert Hn. apply all_impl, kept_not_space_class.
  - rewrite keep_fixed; [|revert Hn; apply all_impl; now intros c [_ H]%andb_true_iff].
    rewrite (strip_of_trimmed name Htn).
    unfold replace_char. apply map_fixed. revert Hnospace. apply all_impl.
    intros c Hc. apply negb_true_iff in Hc. rewrite Hc. unfold eqc.
    apply Ascii.eqb_refl.
  - intros Hnone.
    assert (Hempty : s = "").
    { subst s. unfold strip. rewrite lstrip_spaces; [reflexivity|].
      assert (H : all (fun c => negb (is_word c) && negb (eqc c "-"))
                      (keep kept title) = true) by now apply all_keep_other.
      pose proof (all_keep kept title) as Hk. revert H Hk.
      generalize (keep kept title). intros k.
      induction k as [|c k IH]; [reflexivity|]. cbn [all].
      intros [Hc Hk]%andb_true_iff [Hc' Hk']%andb_true_iff.
      rewrite (IH Hk Hk'), andb_true_r. unfold kept in Hc'.
      apply andb_true_iff in Hc as [Hw Hh].
      apply negb_true_iff in Hw, Hh. rewrite Hw, Hh in Hc'.
      now rewrite orb_false_r in Hc'. }
    subst name. unfold page_folder, __safe_filename_from. fold s.
    rewrite Hempty. split; reflexivity.
Qed.

Lemma safe_filename_shape_witness :
  __safe_filename_from (__safe_filename_from "  Hello, World! - Home ")
  = __safe_filename_from "  Hello, World! - Home ".
Proof.
  refine (proj1 (proj2 (proj2 (proj2
            (safe_filename_shape "  Hello, World! - Home " _))))).
  reflexivity.
Defined.

End NamesFacts.

(** ** The URLs typed in *)

Module InputFacts.
Import Str Text Input StrFacts TextFacts Extract.

Lemma has_scheme_with_scheme url : has_scheme (with_scheme url) = true.
Proof.
  unfold with_scheme. destruct (has_scheme url) eqn:E; [exact E|].
  unfold has_scheme. rewrite (starts_with_app "https://" url). apply orb_true_r.
Qed.

Lemma with_scheme_idem url : with_scheme (with_scheme url) = with_scheme url.
Proof. unfold with_scheme at 1. now rewrite has_scheme_with_scheme. Qed.

(** A URL with one of the two schemes has a third [/]-separated field. *)
Lemma host_field_of_scheme url :
  has_scheme url = true -> exists host, host_field url = Some host.
Proof.
  unfold has_scheme, host_field.
  intros [H|H]%orb_true_iff; apply starts_with_split in H as (r & ->);
    rewrite !app_cons; change ("" +:+ r) with r; cbn;
    destruct (split_on "/" r) as [|h t] eqn:E;
    try (now apply split_on_not_nil in E); eauto.
Qed.

Lemma with_scheme_not_empty url : with_scheme url <> "".
Proof.
  unfold with_scheme. destruct (has_scheme url) eqn:E; [|discriminate].
  intros ->. discriminate.
Qed.

Lemma accepted_with_scheme url : accepted (with_scheme url).
Proof.
  split; [apply has_scheme_with_scheme|]. split; [apply with_scheme_not_empty|].
  apply host_field_of_scheme, has_scheme_with_scheme.
Qed.

Lemma ask_invariant lines : forall acc urls rest,
  Forall accepted acc ->
  ask lines acc = (Some urls, rest) ->
  Forall accepted urls /\ urls <> [] /\
  (exists more, urls = acc ++ more) /\ exists used, lines = used ++ rest.
Proof.
  induction lines as [|line lines IH]; intros acc urls rest Hacc; [discriminate|].
  cbn [ask]. destruct (is_empty (strip line)).
  - destruct acc as [|u acc].
    + intros H. destruct (IH _ _ _ Hacc H) as (H1 & H2 & H3 & used & ->).
      repeat split; try assumption. now exists (line :: used).
    + intros [= <- <-]. repeat split; try assumption; try discriminate.
      * exists []. now rewrite app_nil_r.
      * now exists [line].
  - intros H. destruct (IH _ _ _ (Forall_app_2 _ _ _ Hacc
                                    (Forall_cons_2 _ _ _ (accepted_with_scheme _) (Forall_nil_2 _))) H)
      as (H1 & H2 & (more & ->) & used & ->).
    repeat split; try assumption.
    + exists (with_scheme (strip line) :: more). now rewrite <- List.app_assoc.
    + now exists (line :: used).
Qed.

Lemma ask_blanks blanks : forall lines,
  Forall (fun l => blank l = true) blanks ->
  ask (blanks ++ lines) [] = ask lines [].
Proof.
  induction blanks as [|b blanks IH]; intros lines H; [reflexivity|].
  apply Forall_cons_1 in H as [Hb H]. cbn [app ask].
  unfold blank in Hb. rewrite Hb. now apply IH.
Qed.

Lemma ask_body body : forall acc lines,
  Forall (fun l => blank l = false) body ->
  ask (body ++ lines) acc = ask lines (acc ++ List.map url_of body).
Proof.
  induction body as [|b body IH]; intros acc lines H.
  - cbn. now rewrite app_nil_r.
  - apply Forall_cons_1 in H as [Hb H]. cbn [app ask List.map].
    unfold blank in Hb. rewrite Hb. rewrite (IH _ _ H).
    now rewrite <- List.app_assoc.
Qed.

Lemma ask_stop stop rest u acc :
  blank stop = true -> ask (stop :: rest) (u :: acc) = (Some (u :: acc), rest).
Proof. intros H. cbn [ask]. unfold blank in H. now rewrite H. Qed.

Lemma ask_end acc : ask [] acc = (None, []).
Proof. reflexivity. Qed.

(** Where a completed loop has been: over blank lines while nothing
    was collected, then over the lines of the URLs, to the blank line
    that ends them. *)
Lemma ask_some lines : forall acc urls rest,
  ask lines acc = (Some urls, rest) ->
  exists blanks body stop,
    lines = blanks ++ body ++ stop :: rest /\
    Forall (fun l => blank l = true) blanks /\
    Forall (fun l => blank l = false) body /\
    blank stop = true /\
    urls = acc ++ List.map url_of body /\
    (acc <> [] -> blanks = []) /\ (acc = [] -> body <> []).
Proof.
  induction lines as [|line lines IH]; intros acc urls rest; [discriminate|].
  cbn [ask]. destruct (is_empty (strip line)) eqn:E.
  - destruct acc as [|u acc].
    + intros H. destruct (IH _ _ _ H) as (bl & body & stop & -> & H1 & H2 & H3 & H4 & H5 & H6).
      exists (line :: bl), body, stop. repeat split; try assumption.
      * now apply Forall_cons_2.
      * intros Hne. now contradiction Hne.
    + intros [= <- <-]. exists [], [], line. cbn. rewrite app_nil_r.
      repeat split; try assumption; try constructor. discriminate.
  - intros H. destruct (IH _ _ _ H) as (bl & body & stop & -> & H1 & H2 & H3 & H4 & H5 & H6).
    rewrite H5 by (now destruct acc). exists [], (line :: body), stop.
    cbn [app List.map]. repeat split; try assumption; try constructor; try assumption.
    + rewrite H4, <- List.app_assoc. reflexivity.
    + discriminate.
Qed.

Lemma ask_none lines : forall acc rest,
  ask lines acc = (None, rest) ->
  rest = [] /\
  exists blanks body,
    lines = blanks ++ body /\
    Forall (fun l => blank l = true) blanks /\
    Forall (fun l => blank l = false) body /\
    (acc <> [] -> blanks = []).
Proof.
  induction lines as [|line lines IH]; intros acc rest.
  - intros [= <-]. split; [reflexivity|]. exists [], []. repeat split; constructor.
  - cbn [ask]. destruct (is_empty (strip line)) eqn:E.
    + destruct acc as [|u acc]; [|discriminate].
      intros H. destruct (IH _ _ H) as (-> & bl & body & -> & H1 & H2 & H3).
      split; [reflexivity|]. exists (line :: bl), body.
      repeat split; try assumption; [now apply Forall_cons_2|].
      intros Hne. now contradiction Hne.
    + intros H. destruct (IH _ _ H) as (-> & bl & body & -> & H1 & H2 & H3).
      split; [reflexivity|]. rewrite H3 by (now destruct acc).
      exists [], (line :: body). repeat split; try constructor; assumption.
Qed.

(** The URLs [get_multiple_urls] hands to the batch: there is at least
    one, each starts with [http://] or [https://], is not empty and has
    the third [/]-field from which [__scrape_all_links] reads the host;
    the lines after the closing blank line are left unread; and
    [get_user_input] returns the first of them, never its default [""]. *)
Theorem get_multiple_urls_accepted lines urls rest :
  get_multiple_urls lines = (Some urls, rest) ->
  urls <> [] /\ Forall accepted urls /\
  (exists used, lines = used ++ rest) /\
  exists u, head urls = Some u /\ u <> EmptyString /\
            get_user_input lines = (Some u, rest).
Proof.
  intros H. unfold get_user_input. rewrite H. unfold get_multiple_urls in H.
  destruct (ask_invariant lines [] urls rest (Forall_nil_2 _) H)
    as (Hacc & Hne & _ & Hused).
  repeat split; try assumption.
  destruct urls as [|u urls]; [now contradiction Hne|].
  exists u. repeat split. apply Forall_cons_1 in Hacc as [(_ & Hu & _) _]. exact Hu.
Qed.

Lemma get_multiple_urls_accepted_witness :
  exists u, head ["https://example.com"; "http://a.org/x"] = Some u /\
            u <> EmptyString /\
            get_user_input ["  "; " example.com "; "http://a.org/x"; ""; "later"]
            = (Some u, ["later"]).
Proof.
  refine (proj2 (proj2 (proj2 (get_multiple_urls_accepted
    ["  "; " example.com "; "http://a.org/x"; ""; "later"]
    ["https://example.com"; "http://a.org/x"] ["later"] _)))).
  reflexivity.
Defined.

(** What [get_multiple_urls] reads.  It returns exactly when the lines
    typed are some blank lines, then at least one line that is not blank,
    then a blank line: the URLs are those of the lines in between, each
    stripped and given [https://] when it has no scheme, in order, and
    what follows the closing blank line is not read.  With no blank line
    after a URL the input runs out and [input()] raises [EOFError]. *)
Theorem get_multiple_urls_reads lines :
  (forall urls rest,
     get_multiple_urls lines = (Some urls, rest) <->
     exists blanks body stop,
       lines = blanks ++ body ++ stop :: rest /\
       Forall (fun l => blank l = true) blanks /\
       Forall (fun l => blank l = false) body /\ body <> [] /\
       blank stop = true /\ urls = List.map url_of body) /\
  (fst (get_multiple_urls lines) = None <->
   exists blanks body,
     lines = blanks ++ body /\
     Forall (fun l => blank l = true) blanks /\
     Forall (fun l => blank l = false) body).
Proof.
  unfold get_multiple_urls. split.
  - intros urls rest. split.
    + intros H. destruct (ask_some _ _ _ _ H)
        as (bl & body & stop & -> & H1 & H2 & H3 & H4 & _ & H6).
      exists bl, body, stop. repeat split; try assumption. now apply H6.
    + intros (bl & body & stop & -> & H1 & H2 & Hne & H3 & ->).
      rewrite (ask_blanks _ _ H1), (ask_body _ _ _ H2). cbn [app].
      destruct body as [|b body]; [now contradiction Hne|].
      cbn [List.map]. now apply ask_stop.
  - split.
    + destruct (ask lines []) as [[urls|] rest] eqn:E; [discriminate|]. intros _.
      destruct (ask_none _ _ _ E) as (_ & bl & body & -> & H1 & H2 & _).
      now exists bl, body.
    + intros (bl & body & -> & H1 & H2).
      rewrite (ask_blanks _ _ H1).
      rewrite <- (app_nil_r body), (ask_body _ _ _ H2). reflexivity.
Qed.
End InputFacts.

(** ** Links, images and Open Graph tags *)

Module ExtractFacts.
Import Str Text Extract StrFacts TextFacts.
Local Open Scope nat_scope.



Section Resolve.
Variable urljoin : string -> string -> string.













(** *** Images *)

Section Images.
Variable num : Type.




End Images.
End Resolve.




(** *** Open Graph tags *)

Lemma says_step k m tags :
  og_step tags m !! k
  = match says k m with Some v => Some v | None => tags !! k end.
Proof.
  unfold og_step, says.
  destruct (m_property m) as [[|c r]|]; try reflexivity.
  destruct (m_content m) as [[|c' r']|]; try reflexivity.
  destruct (String.eqb_spec (String c r) k) as [<-|Hne].
  - apply lookup_insert_eq.
  - now apply lookup_insert_ne.
Qed.

Lemma og_fold k metas : forall tags,
  fold_left og_step metas tags !! k
  = match last (omap (says k) metas) with
    | Some v => Some v
    | None => tags !! k
    end.
Proof.
  induction metas as [|m metas IH]; intros tags; [reflexivity|].
  cbn [fold_left]. rewrite IH, says_step.
  change (omap (says k) (m :: metas))
    with (match says k m with
          | Some v => v :: omap (says k) metas
          | None => omap (says k) metas
          end).
  destruct (says k m) as [v|] eqn:E; [|reflexivity].
  destruct (omap (says k) metas) as [|v' l] eqn:El; [reflexivity|].
  rewrite (last_cons v (v' :: l)). now destruct (last (v' :: l)).
Qed.

Lemma says_not_empty k m v :
  says k m = Some v -> k <> EmptyString /\ v <> EmptyString /\
                       m_property m = Some k /\ m_content m = Some v.
Proof.
  unfold says. destruct (m_property m) as [[|c r]|]; try discriminate.
  destruct (m_content m) as [[|c' r']|]; try discriminate.
  destruct (String.eqb_spec (String c r) k) as [<-|Hne]; [|discriminate].
  intros [= <-]. repeat split; discriminate.
Qed.

(** The [og_tags] dictionary of [__scrape_metadata]: under a property
    name it holds the content of the last tag of the page that carries
    that name with a content, both not empty; tags that lack either
    leave no entry, and no key and no value of the dictionary is
    empty. *)
Theorem og_tags_last_wins metas k :
  og_tags metas !! k = last (omap (says k) metas) /\
  (forall v, og_tags metas !! k = Some v ->
     k <> EmptyString /\ v <> EmptyString /\
     exists m, In m metas /\ m_property m = Some k /\ m_content m = Some v).
Proof.
  assert (H : og_tags metas !! k = last (omap (says k) metas)).
  { unfold og_tags. rewrite og_fold, lookup_empty.
    now destruct (last (omap (says k) metas)). }
  split; [exact H|]. intros v Hv. rewrite H in Hv.
  apply last_Some in Hv as (l & Hl).
  assert (Hin : v ∈ omap (says k) metas) by (rewrite Hl; set_solver).
  apply list_elem_of_omap in Hin as (m & Hm & Hs).
  destruct (says_not_empty _ _ _ Hs) as (H1 & H2 & H3 & H4).
  split; [exact H1|]. split; [exact H2|]. exists m.
  split; [now apply list_elem_of_In|]. now split.
Qed.
End ExtractFacts.

(** ** 4.1 The cookie files *)

Module CookieFileFacts.
Import Str CookieStore Browser Handler StrFacts CookieStoreFacts.

Lemma append_inj_l (s t t' : string) : s +:+ t = s +:+ t' -> t = t'.
Proof.
  induction s as [|c s IH]; [trivial|].
  rewrite !app_cons. intros [= H]. now apply IH.
Qed.

Lemma length_append (s t : string) :
  String.length (s +:+ t) = (String.length s + String.length t)%nat.
Proof.
  induction s as [|c s IH]; [reflexivity|].
  rewrite app_cons. cbn [String.length]. now rewrite IH.
Qed.

Lemma append_inj_r (u : string) : forall t t', t +:+ u = t' +:+ u -> t = t'.
Proof.
  induction t as [|c t IH]; intros [|c' t'] H.
  - reflexivity.
  - apply (f_equal String.length) in H. rewrite !length_append in H.
    cbn [String.length] in H. lia.
  - apply (f_equal String.length) in H. rewrite !length_append in H.
    cbn [String.length] in H. lia.
  - rewrite !app_cons in H. injection H as -> H. f_equal. now apply IH.
Qed.

(** The name of a cookie file never starts with [/], so joining it to
    the directory keeps the directory. *)
Lemma key_file_relative url :
  starts_with "/" (derive_key url +:+ "_cookies.json") = false.
Proof.
  pose proof (sanitize_safe (_get_domain_key url)) as H.
  unfold derive_key. destruct (sanitize (_get_domain_key url)) as [|c k].
  - reflexivity.
  - rewrite app_cons. cbn [all] in H. apply andb_true_iff in H as [Hc _].
    cbn [starts_with]. now rewrite (safe_not_slash c Hc).
Qed.

Lemma path_join_inj a b b' :
  starts_with "/" b = false -> starts_with "/" b' = false ->
  path_join a b = path_join a b' -> b = b'.
Proof.
  unfold path_join. intros -> ->. destruct a as [|c a]; [trivial|].
  destruct (last_is "/" (String c a)); intros H.
  - now apply append_inj_l in H.
  - apply append_inj_l in H. now apply append_inj_l in H.
Qed.

Lemma cookie_file_inj self url url' :
  cookie_file self url = cookie_file self url' -> derive_key url = derive_key url'.
Proof.
  unfold cookie_file, _get_cookie_file. intros H.
  apply path_join_inj in H; try apply key_file_relative.
  now apply append_inj_r in H.
Qed.

Lemma save_cookies_run self url w :
  save_cookies self url w
  = if e_writable (w_env w) (cookie_file self url)
    then (Val (w_jar w),
          with_trace (w_trace w ++ [WriteFile (cookie_file self url);
                                    Print (MSavedCookies (length (w_jar w))
                                                         (cookie_file self url))])
            (with_files (<[cookie_file self url := CookieJson (w_jar w)]> (w_files w)) w))
    else (Exc IOError, w).
Proof.
  unfold save_cookies, write_json, print, emit, Eff.bind, Eff.get, Eff.modify,
    Eff.ret, Eff.raise.
  destruct (e_writable (w_env w) (cookie_file self url)); [|reflexivity].
  cbn. now rewrite <- List.app_assoc.
Qed.

(** The cookie file is a function of the key and of nothing else in
    the URL: two URLs share their file exactly when they have the same
    key, so saving the cookies of one site leaves the files of the sites
    with other keys as they were. *)
Theorem cookie_file_by_key self url url' :
  (cookie_file self url = cookie_file self url'
   <-> derive_key url = derive_key url') /\
  (forall w, derive_key url' <> derive_key url ->
     w_files (snd (save_cookies self url w)) !! cookie_file self url'
     = w_files w !! cookie_file self url').
Proof.
  split.
  - split; [apply cookie_file_inj|].
    unfold cookie_file, _get_cookie_file. now intros ->.
  - intros w Hne. rewrite save_cookies_run.
    destruct (e_writable (w_env w) (cookie_file self url)); [|reflexivity].
    cbn. apply lookup_insert_ne. intros H. apply Hne. symmetry.
    now apply cookie_file_inj in H.
Qed.

(** Saving and loading.  [save_cookies] raises the error of [open] when
    the file cannot be opened, and has then changed and printed nothing.
    Otherwise it returns the jar and the file of the URL's key holds the
    jar, whatever it held before; a later [load_cookies], for any URL of
    the same key and in any session that finds the files so, returns
    [True] and adds exactly the saved entries to the jar of that session,
    provided the file can be read and the context takes the entries. *)
Theorem saved_cookies_load_back self url w :
  let file := cookie_file self url in
  let r := save_cookies self url w in
  (e_writable (w_env w) file = false -> r = (Exc IOError, w)) /\
  (e_writable (w_env w) file = true ->
   fst r = Val (w_jar w) /\
   w_files (snd r) = <[file := CookieJson (w_jar w)]> (w_files w) /\
   w_jar (snd r) = w_jar w /\
   forall url' w2,
     derive_key url' = derive_key url ->
     w_env w2 = w_env w -> w_files w2 = w_files (snd r) ->
     e_readable (w_env w) file = true -> e_accepts (w_env w) (w_jar w) = true ->
     let r2 := load_cookies self url' w2 in
     fst r2 = Val true /\ w_jar (snd r2) = w_jar w2 ++ w_jar w /\
     w_files (snd r2) = w_files w2).
Proof.
  cbn zeta. rewrite save_cookies_run. split; intros Hw; rewrite Hw; [reflexivity|].
  cbn [fst snd]. do 3 (split; [reflexivity|]).
  intros url' w2 Hk Henv Hfiles Hr Ha. cbn in Hfiles.
  assert (Hf : cookie_file self url' = cookie_file self url)
    by (unfold cookie_file, _get_cookie_file; now rewrite Hk).
  unfold load_cookies, Eff.bind, Eff.get, Eff.catch, read_json, add_cookies,
    print, emit, Eff.modify, Eff.ret, Eff.raise.
  rewrite Hf, Hfiles, lookup_insert_eq. cbn. rewrite Henv, Hr. cbn.
  rewrite ?Henv, Ha. cbn.
  repeat split. exact Hfiles.
Qed.

Lemma cookie_file_by_key_witness :
  cookie_file default "http://www.example.com:8443/a" = cookie_file default Scenario.target.
Proof.
  apply (proj2 (proj1 (cookie_file_by_key default "http://www.example.com:8443/a"
                         Scenario.target))).
  reflexivity.
Defined.

Lemma saved_cookies_load_back_witness :
  let r := save_cookies default Scenario.target Sample.signed_in in
  let r2 := load_cookies default "http://www.example.com:8443/a"
              (with_files (w_files (snd r)) Scenario.nobody) in
  fst r2 = Val true /\ w_jar (snd r2) = [] ++ [Scenario.session_cookie] /\
  w_files (snd r2) = w_files (snd r).
Proof.
  cbn zeta.
  destruct (saved_cookies_load_back default Scenario.target Sample.signed_in)
    as (_ & H).
  destruct (H eq_refl) as (_ & _ & _ & H2).
  apply (H2 "http://www.example.com:8443/a"
            (with_files
               (w_files (snd (save_cookies default Scenario.target Sample.signed_in)))
               Scenario.nobody)); reflexivity.
Defined.
End CookieFileFacts.

(** ** How long a call can take *)

Module LimitFacts.
Import Browser Handler BrowserFacts OrchestratorFacts Limits.

Lemma within_refl w : within w w 0 0 0.
Proof. unfold within. lia. Qed.

Lemma within_trans w1 w2 w3 s n c s' n' c' :
  within w1 w2 s n c -> within w2 w3 s' n' c' ->
  within w1 w3 (s + s') (n + n') (c + c').
Proof. unfold within. lia. Qed.

Lemma within_weaken w w' s n c s' n' c' :
  within w w' s n c -> s <= s' -> (n <= n')%nat -> (c <= c')%nat ->
  within w w' s' n' c'.
Proof. unfold within. lia. Qed.

Lemma moved_within w w' dc dn dt evs :
  moved w w' dc dn dt evs -> 0 <= dt -> within w w' dt dn dc.
Proof.
  intros (_ & H2 & H3 & H4 & _) H. unfold within. lia.
Qed.

(** The counts of the countdown, by position. *)
Lemma range_down_at t pre i post :
  range_down t 0 = pre ++ i :: post ->
  i = t - Z.of_nat (length pre) /\ 1 <= i.
Proof.
  intros H.
  assert (Hn : nth_error (range_down t 0) (length pre) = Some i).
  { rewrite H, nth_error_app2 by lia. now rewrite Nat.sub_diag. }
  assert (Hlen : (length pre < Z.to_nat (t - 0))%nat).
  { rewrite <- range_down_length, H, length_app. cbn [length]. lia. }
  unfold range_down in Hn. rewrite nth_error_map in Hn.
  rewrite (proj2 (nth_error_seq _ _ _) (conj Hlen eq_refl)) in Hn || idtac.
  revert Hn. destruct (nth_error (seq 0 (Z.to_nat (t - 0))) (length pre)) as [k|] eqn:E;
    [|discriminate].
  apply nth_error_nth with (d := 0%nat) in E. rewrite seq_nth in E by exact Hlen.
  cbn [Nat.add] in E. subst k. cbn [option_map]. intros [= <-]. lia.
Qed.

(** The polls of a countdown of [t] seconds. *)
Lemma polls_range_down t : 0 <= t -> polls (range_down t 0) = Z.to_nat (t / 3).
Proof.
  intros Ht. rewrite <- (Z2Nat.id t Ht). generalize (Z.to_nat t) as n. clear.
  induction n as [|n IH]; [reflexivity|].
  rewrite (range_down_cons (Z.of_nat (S n)) 0) by lia.
  change (Z.of_nat (S n) :: ?l) with ([Z.of_nat (S n)] ++ l).
  rewrite polls_app. replace (Z.of_nat (S n) - 1) with (Z.of_nat n) by lia.
  rewrite IH. unfold polls. cbn [List.filter].
  destruct (Z.eqb_spec (Z.of_nat (S n) mod 3) 0) as [E|E]; cbn [length].
  - assert (Z.of_nat (S n) / 3 = Z.of_nat n / 3 + 1 /\ 0 <= Z.of_nat n / 3)
      by (Z.div_mod_to_equations; lia). lia.
  - assert (Z.of_nat (S n) / 3 = Z.of_nat n / 3 /\ 0 <= Z.of_nat n / 3)
      by (Z.div_mod_to_equations; lia). lia.
Qed.

Section Bounds.
Variable self : AuthHandler.
Variable chk : Detector.Page -> string -> M nat bool.
Variables (url : string) (timeout : Z).

(** One pass of the countdown. *)
Lemma wait_body_bound i w :
  exists (b : bool) w',
    wait_body chk url timeout i w = (Val b, w') /\
    w_navs w' = w_navs w /\
    (w_checks w <= w_checks w' <= polls [i] + w_checks w)%nat /\
    w_clock w' = w_clock w + (if b then 0 else 1) /\
    (b = true -> i mod 3 = 0).
Proof.
  assert (Hpass : i mod 3 <> 0 \/ poll chk (w_env w) url (w_checks w) <> Val true ->
            exists (b : bool) w',
              wait_body chk url timeout i w = (Val b, w') /\
              w_navs w' = w_navs w /\
              (w_checks w <= w_checks w' <= polls [i] + w_checks w)%nat /\
              w_clock w' = w_clock w + (if b then 0 else 1) /\
              (b = true -> i mod 3 = 0)).
  { intros H. destruct (wait_body_pass chk url timeout i w H)
      as (w' & Hrun & _ & H2 & H3 & H4 & _).
    exists false, w'. split; [exact Hrun|]. repeat split; try lia; try discriminate. }
  destruct (Z.eq_dec (i mod 3) 0) as [E|E]; [|apply Hpass; now left].
  destruct (poll chk (w_env w) url (w_checks w)) as [[]|e] eqn:P;
    [|apply Hpass; right; congruence..].
  destruct (wait_body_hit chk url timeout i w E P) as (w' & Hrun & _ & H2 & H3 & H4 & _).
  exists true, w'. split; [exact Hrun|].
  assert (polls [i] = 1%nat).
  { unfold polls. cbn [List.filter]. apply Z.eqb_eq in E. now rewrite E. }
  repeat split; try lia.
Qed.

(** The countdown: it stops at a count divisible by 3, having slept one
    second for each count before it, or sleeps one second for every
    count. *)
Lemma wait_loop_bound counts : forall w,
  exists (b : bool) w',
    wait_loop chk url timeout counts w = (Val b, w') /\
    w_navs w' = w_navs w /\
    (w_checks w <= w_checks w' <= polls counts + w_checks w)%nat /\
    if b then exists pre i post,
                counts = pre ++ i :: post /\ i mod 3 = 0 /\
                w_clock w' = w_clock w + Z.of_nat (length pre)
    else w_clock w' = w_clock w + Z.of_nat (length counts).
Proof.
  induction counts as [|i counts IH]; intros w.
  - exists false, w. cbn. repeat split; lia.
  - destruct (wait_body_bound i w) as (b & w1 & Hrun & H1 & H2 & H3 & H4).
    cbn [wait_loop]. unfold Eff.bind. rewrite Hrun.
    change (i :: counts) with ([i] ++ counts). rewrite polls_app.
    destruct b.
    + exists true, w1. split; [reflexivity|]. split; [exact H1|]. split; [lia|].
      exists [], i, counts. split; [reflexivity|]. split; [now apply H4|].
      cbn [length]. lia.
    + destruct (IH w1) as (b2 & w2 & Hrun2 & K1 & K2 & K3).
      exists b2, w2. split; [exact Hrun2|]. split; [lia|]. split; [lia|].
      destruct b2.
      * destruct K3 as (pre & j & post & -> & Hj & Hc).
        exists (i :: pre), j, post. split; [reflexivity|]. split; [exact Hj|].
        cbn [length]. lia.
      * cbn [app length]. lia.
Qed.

Lemma renavigate_bound w :
  exists w', renavigate url w = (Val tt, w') /\ within w w' 8 2 0.
Proof.
  unfold renavigate, goto_quietly, goto. run_eff.
  destruct (e_goto_raises (w_env w) (w_navs w)); cbn.
  - destruct (e_goto_raises (w_env w) (S (w_navs w))); cbn;
      (eexists; split; [reflexivity|unfold within; cbn; lia]).
  - eexists; split; [reflexivity|unfold within; cbn; lia].
Qed.

Lemma verify_body_bound a w :
  exists r w',
    verify_body self chk url a w = (Val r, w') /\
    within w w' (if a <? max_retries - 1 then 5 else 0)
                (if a <? max_retries - 1 then 1 else 0) 1.
Proof.
  destruct (confirms self chk (w_env w) url (w_checks w)) eqn:C.
  - destruct (verify_body_confirmed self chk url a w C)
      as (w' & Hrun & _ & H2 & H3 & H4 & _).
    exists (Some true), w'. split; [exact Hrun|]. unfold within.
    destruct (a <? max_retries - 1); lia.
  - destruct (verify_body_failed self chk url a w C)
      as (w' & Hrun & (_ & H2 & H3 & H4 & _) & _).
    exists None, w'. split; [exact Hrun|]. unfold within.
    rewrite slept_attempt_failed in H4.
    destruct (a <? max_retries - 1); [destruct (e_goto_raises _ _)|]; lia.
Qed.

Lemma verify_loop_bound atts : forall w,
  exists b w',
    verify_loop self chk url atts w = (Val b, w') /\
    within w w' (5 * Z.of_nat (retries atts)) (retries atts) (length atts).
Proof.
  induction atts as [|a atts IH]; intros w.
  - cbn [verify_loop]. run_eff. eexists _, _. split; [reflexivity|].
    unfold within. cbn. lia.
  - destruct (verify_body_bound a w) as (r & w1 & Hrun & Hw).
    cbn [verify_loop]. unfold Eff.bind at 1. rewrite Hrun.
    assert (Hr : retries (a :: atts)
                 = ((if (a <? max_retries - 1)%Z then 1 else 0) + retries atts)%nat).
    { unfold retries. cbn [List.filter]. now destruct (a <? max_retries - 1). }
    destruct r as [b|].
    + exists b, w1. split; [reflexivity|]. rewrite Hr. cbn [length].
      revert Hw. unfold within. destruct (a <? max_retries - 1); lia.
    + destruct (IH w1) as (b & w2 & Hrun2 & Hw2).
      exists b, w2. split; [exact Hrun2|]. rewrite Hr. cbn [length].
      revert Hw Hw2. unfold within. destruct (a <? max_retries - 1); lia.
Qed.

Lemma after_wait_bound (logged_in : bool) w :
  exists b w',
    after_wait self chk url logged_in w = (Val b, w') /\
    if logged_in then within w w' 20 4 3 else within w w' 0 0 0.
Proof.
  unfold after_wait. destruct logged_in.
  - unfold Eff.bind at 1 2 3 4.
    unfold print at 1 2, sleep, emit, Eff.modify, Eff.bind. cbn.
    match goal with
    | |- context [renavigate url ?w0] =>
        destruct (renavigate_bound w0) as (w1 & -> & Hw1);
        assert (Hw0 : within w w0 2 0 0) by (unfold within; cbn; lia)
    end.
    destruct (verify_loop_bound (range_up max_retries) w1) as (b & w2 & -> & Hw2).
    exists b, w2. split; [reflexivity|].
    change (retries (range_up max_retries)) with 2%nat in Hw2.
    change (length (range_up max_retries)) with 3%nat in Hw2.
    revert Hw0 Hw1 Hw2. unfold within. lia.
  - run_eff. eexists _, _. split; [reflexivity|]. unfold within. cbn. lia.
Qed.

Lemma login_flow_bound (loaded : bool) w :
  0 <= timeout ->
  exists b w',
    login_flow self chk url timeout loaded w = (Val b, w') /\
    within w w' (timeout + 17) 4 (polls (range_down timeout 0) + 3).
Proof.
  intros Ht.
  destruct (banner_moved timeout loaded w) as (w0 & Hrun0 & Hm0 & _).
  rewrite (login_flow_unfold self chk url timeout loaded w w0 Hrun0). unfold Eff.bind.
  destruct (wait_loop_bound (range_down timeout 0) w0)
    as (hit & w1 & -> & H1 & H2 & H3).
  destruct (after_wait_bound hit w1) as (b & w2 & -> & Hw2).
  exists b, w2. split; [reflexivity|].
  destruct Hm0 as (_ & M2 & M3 & M4 & _).
  destruct hit.
  - destruct H3 as (pre & i & post & Hsplit & Hi & Hc).
    destruct (range_down_at _ _ _ _ Hsplit) as (Hpos & Hone).
    assert (3 <= i) by (Z.div_mod_to_equations; lia).
    revert Hw2. unfold within. lia.
  - rewrite range_down_length in H3. revert Hw2. unfold within. lia.
Qed.

Lemma settle_and_check_bound (loaded : bool) w :
  0 <= timeout ->
  exists b w',
    settle_and_check self chk url timeout loaded w = (Val b, w') /\
    within w w' (timeout + 22) 4 (polls (range_down timeout 0) + 4).
Proof.
  intros Ht.
  destruct (settle_and_check_run self chk url timeout loaded w)
    as [(_ & w1 & -> & Hm)|(_ & w1 & evs & -> & Hm & _)].
  - exists true, w1. split; [reflexivity|].
    destruct Hm as (_ & M2 & M3 & M4 & _). unfold within. lia.
  - destruct (login_flow_bound loaded w1 Ht) as (b & w2 & -> & Hw2).
    exists b, w2. split; [reflexivity|].
    destruct Hm as (_ & M2 & M3 & M4 & _). revert Hw2. unfold within. lia.
Qed.

Lemma handle_authentication_within w :
  0 <= timeout ->
  within w (snd (handle_authentication_with self chk url timeout w))
         (timeout + 22) 5 (polls (range_down timeout 0) + 4).
Proof.
  intros Ht.
  destruct (handle_authentication_entry self chk url timeout w)
    as (loaded & w1 & evs & E1 & E2 & E3 & E4 & E5 & E6 & E7 & E8 & E9 & ->).
  destruct (e_goto_raises (w_env w) (w_navs w)).
  - cbn [snd]. unfold within. lia.
  - destruct (settle_and_check_bound loaded w1 Ht) as (b & w2 & -> & Hw2).
    cbn [snd]. revert Hw2. unfold within. lia.
Qed.

(** A timeout below 3 seconds leaves the user no time: the countdown
    has no count divisible by 3 and polls nothing.  When the first
    navigation works, the call makes the one check after it and returns
    [True] after 5 seconds if that check answers [True]; otherwise it
    returns [False] after [5 + timeout] seconds.  No file is written
    either way. *)
Theorem short_countdown_polls_nothing w :
  0 <= timeout < 3 -> e_goto_raises (w_env w) (w_navs w) = false ->
  let r := handle_authentication_with self chk url timeout w in
  w_checks (snd r) = S (w_checks w) /\ w_files (snd r) = w_files w /\
  (fst r = Val true /\ w_clock (snd r) = w_clock w + 5 /\
   poll chk (w_env w) url (w_checks w) = Val true \/
   fst r = Val false /\ w_clock (snd r) = w_clock w + 5 + timeout /\
   poll chk (w_env w) url (w_checks w) <> Val true).
Proof.
  intros Ht Hgo. cbn zeta.
  assert (Hp : polls (range_down timeout 0) = 0%nat).
  { rewrite polls_range_down by lia.
    replace (timeout / 3) with 0 by (Z.div_mod_to_equations; lia). reflexivity. }
  assert (Hdec : poll chk (w_env w) url (w_checks w) = Val true \/
                 poll chk (w_env w) url (w_checks w) <> Val true)
    by (destruct (poll chk (w_env w) url (w_checks w)) as [[]|e];
        [left|right|right]; congruence).
  destruct Hdec as [P|P].
  - destruct (handle_authentication_entry self chk url timeout w)
      as (loaded & w1 & evs & E1 & E2 & E3 & E4 & E5 & E6 & E7 & E8 & E9 & ->).
    rewrite Hgo.
    destruct (settle_and_check_run self chk url timeout loaded w1)
      as [(_ & w2 & -> & Hm)|(P' & _)].
    + cbn [fst snd]. destruct Hm as (_ & M2 & M3 & M4 & M5 & _).
      rewrite M2, M5, M4, E2, E4, E5. split; [lia|]. split; [reflexivity|].
      left. repeat split; try lia. exact P.
    + exfalso. apply P'. now rewrite E1, E2.
  - destruct (handle_authentication_timeout self chk url timeout w) as (R1 & R2 & R3 & R4);
      [lia|exact Hgo| |].
    + intros k Hk. rewrite Hp in Hk. replace k with 0%nat by lia. exact P.
    + rewrite Hp in R4. split; [exact R4|]. split; [exact R3|]. right.
      repeat split; assumption.
Qed.
End Bounds.

Lemma short_countdown_polls_nothing_witness :
  let r := handle_authentication default Scenario.target 2 Scenario.nobody in
  w_checks (snd r) = 1%nat /\ w_files (snd r) = w_files Scenario.nobody.
Proof.
  destruct (short_countdown_polls_nothing default Detector.is_logged_in
              Scenario.target 2 Scenario.nobody ltac:(lia) eq_refl)
    as (H1 & H2 & _).
  split; [exact H1|exact H2].
Defined.

(** How long [handle_authentication] can take, for a timeout [t] that
    is not negative: from the call to its return or its error the code
    sleeps at most [t + 22] seconds, navigates at most 5 times and checks
    the login at most [t / 3 + 4] times, whatever the pages, the
    navigations and the files do.  The countdown polls [t / 3] times.  The
    bound is attained: with [t = 3], a login seen at the first poll and
    lost afterwards, and a failing first navigation back to the target,
    the call takes 25 seconds, 5 navigations and 5 checks. *)
Theorem handle_authentication_bounds self chk url t w :
  0 <= t ->
  let r := handle_authentication_with self chk url t w in
  within w (snd r) (t + 22) 5 (Z.to_nat (t / 3) + 4) /\
  polls (range_down t 0) = Z.to_nat (t / 3) /\
  (let r3 := handle_authentication default Scenario.target 3 slowest in
   fst r3 = Val false /\ w_clock (snd r3) = 3 + 22 /\
   w_navs (snd r3) = 5%nat /\ w_checks (snd r3) = 5%nat).
Proof.
  intros Ht. cbn zeta. rewrite <- (polls_range_down t Ht).
  split; [now apply handle_authentication_within|]. split; [reflexivity|].
  vm_compute. repeat split.
Qed.

Lemma handle_authentication_bounds_witness :
  within slowest (snd (handle_authentication default Scenario.target 3 slowest))
         (3 + 22) 5 (Z.to_nat (3 / 3) + 4).
Proof.
  refine (proj1 (handle_authentication_bounds default Detector.is_logged_in
                   Scenario.target 3 slowest _)).
  lia.
Defined.

(** A page at a sign-in address is never taken for a logged-in one. *)
Lemma login_address_refused p url :
  (forall n, Detector.url_matches (p n) = true) ->
  fst (Detector.is_logged_in p url 0%nat) = Val false.
Proof.
  intros H. unfold Detector.is_logged_in.
  apply DetectorFacts.is_logged_in_with_refused. left.
  destruct (DetectorFacts.is_login_required_eval p 0%nat) as (n' & ->).
  cbn [fst]. f_equal. unfold Detector.signals, Detector.signals_from.
  rewrite (H (Detector.after_form p 0%nat)).
  now rewrite orb_true_r.
Qed.

(** A target that cannot be authenticated.  When every page the checks
    see, logged in or not, has an address that holds one of the login
    indicators - [auth] and [accounts] among them - the detector answers
    [True] at every check, so [handle_authentication] runs the whole
    countdown and returns [False] after [5 + t] seconds, having polled
    [t / 3] times after the first check and written nothing. *)
Theorem login_address_never_passes self url t w :
  0 <= t -> e_goto_raises (w_env w) (w_navs w) = false ->
  (forall k n, Detector.url_matches (e_live (w_env w) k n) = true) ->
  let r := handle_authentication self url t w in
  fst r = Val false /\ w_clock (snd r) = w_clock w + 5 + t /\
  w_files (snd r) = w_files w /\
  w_checks (snd r) = (S (Z.to_nat (t / 3)) + w_checks w)%nat.
Proof.
  intros Ht Hgo Hurl. cbn zeta. rewrite <- (polls_range_down t Ht).
  apply handle_authentication_timeout; [exact Ht|exact Hgo|].
  intros k _. unfold poll. rewrite login_address_refused; [discriminate|].
  intros n. apply Hurl.
Qed.

Lemma login_address_never_passes_witness :
  let r := handle_authentication default Scenario.target 6 stuck in
  fst r = Val false /\ w_clock (snd r) = w_clock stuck + 5 + 6 /\
  w_files (snd r) = w_files stuck /\
  w_checks (snd r) = (S (Z.to_nat (6 / 3)) + w_checks stuck)%nat.
Proof.
  apply (login_address_never_passes default Scenario.target 6 stuck).
  - lia.
  - reflexivity.
  - intros k n. reflexivity.
Defined.
End LimitFacts.

(** ** When a call succeeds *)

Module SuccessFacts.
Import Browser Handler BrowserFacts OrchestratorFacts LimitFacts.



Section Success.
Variable self : AuthHandler.
Variable chk : Detector.Page -> string -> M nat bool.
Variables (url : string) (timeout : Z).





End Success.

End SuccessFacts.

(** ** One URL, and the batch *)

Module BatchFacts.
Import Browser Handler Scraper Batch BrowserFacts OrchestratorFacts.











End BatchFacts.

(** ** Runs of the code on small inputs *)

Module Checks.
Import Detector CookieStore.

Example key_of_plain_url : derive_key "https://a.com/x" = "a.com".
Proof. reflexivity. Qed.

Example key_of_www_url : derive_key "http://www.a.com/y?z=1" = "a.com".
Proof. reflexivity. Qed.

Example key_of_port_url : derive_key "https://www.example.com:8443/a" = "example.com".
Proof. reflexivity. Qed.

Example key_of_bare_host : derive_key "a.com" = "".
Proof. reflexivity. Qed.

Example cookie_file_of_target :
  Handler.cookie_file Handler.default Scenario.target
  = "cookies/example.com_cookies.json".
Proof. reflexivity. Qed.

Example username_selector :
  sel_username = "input[name=" +:+ dq +:+ "username" +:+ dq +:+ "]".
Proof. reflexivity. Qed.

Example quiet_page_probed_13_times :
  is_login_required (static quiet) 0%nat = (Val false, 13%nat).
Proof. reflexivity. Qed.

Example login_form_found_at_third_access :
  is_login_required (static login_form) 0%nat = (Val true, 3%nat).
Proof. reflexivity. Qed.

Example url_indicator_is_case_insensitive :
  url_matches {| snap_query := fun _ => Val false;
                 snap_url := Val "https://example.com/LogIn";
                 snap_title := Val "Welcome" |} = true.
Proof. reflexivity. Qed.

(** The orchestrator scenarios of the specification's section 8. *)

Example scenario_A_valid_session :
  Scenario.outcome_of (Handler.handle_authentication Handler.default Scenario.target 60
                Scenario.valid_session)
  = (Val true, 5, [], 1%nat).
Proof. vm_compute. reflexivity. Qed.

Example scenario_B_timeout_of_9 :
  Scenario.outcome_of (Handler.handle_authentication Handler.default Scenario.target 9
                Scenario.nobody)
  = (Val false, 5 + 9, [], 4%nat).
Proof. vm_compute. reflexivity. Qed.

Example scenario_C_login_at_second_6_of_15 :
  Scenario.outcome_of (Handler.handle_authentication Handler.default Scenario.target 15
                Scenario.logs_in)
  = (Val true, 5 + 6 + 2 + 5, ["cookies/example.com_cookies.json"], 5%nat).
Proof. vm_compute. reflexivity. Qed.

Example scenario_D_login_lost_again :
  Scenario.outcome_of (Handler.handle_authentication Handler.default Scenario.target 3
                Scenario.lost_again)
  = (Val false, 5 + 0 + 2 + 5 + 2 + 2, [], 5%nat).
Proof. vm_compute. reflexivity. Qed.

Example run_after_timeout_has_slept_68_seconds :
  Browser.w_clock (snd (Scraper.run Scenario.target Scenario.nobody)) = 68.
Proof. vm_compute. reflexivity. Qed.
End Checks.
